(** * NFT card scraper ([hui.py]): filename allocator and extraction pipeline

    A shallow embedding of [get_unique_filename] and [parse_html_to_json].

    Conventions of the embedding:
    - a Python [str] is a Rocq [string] holding the UTF-8 bytes of the text
      (the input is read, and the output written, with [encoding='utf-8']);
      text without a UTF-8 form (a lone surrogate) is outside the model;
    - the file system is a finite map from the paths of regular, readable
      files holding UTF-8 text to their contents, a file being known under
      one spelling of its path; on such a directory [open] and [read] fail
      only on a missing file. A directory or unreadable file in the place of
      [index.html], or bytes that are not UTF-8, make the script raise an
      exception it does not catch: these runs are outside the model;
    - the parser is a function from texts to trees; markup that the parser
      rejects with an exception, which the script does not catch either, is
      outside the model as well;
    - the [while True] loop of the allocator is run with fuel: [None] means
      that the loop did not reach a [return] within the given number of
      iterations;
    - the tree built by BeautifulSoup is an inductive type, and the library
      calls the script makes on it ([find_all], [find], [get], [get_text])
      are functions on this type. *)

From Stdlib Require Import Ascii.
From stdpp Require Import gmap strings list fin_maps pretty.

Set Warnings "-register-all".

(** ** The file system *)

Module FS.

(** A file system state is a [gmap string string]: the paths of the
    regular files, each with its contents. A path is its spelling: the model
    knows each file under one name, as the script does for the names it
    builds itself; other spellings of a path ([./name], another letter case
    on a case-insensitive volume, a link) are not modelled. *)

(** [os.path.exists(p)] *)
Definition exists_ (fs : gmap string string) (p : string) : bool :=
  bool_decide (is_Some (fs !! p)).

(** [with open(p, 'w') as f: f.write(data)]: creates or truncates. *)
Definition write (fs : gmap string string) (p data : string) : gmap string string :=
  <[p := data]> fs.

(** Creating an (empty) file. *)
Definition touch (fs : gmap string string) (p : string) : gmap string string :=
  write fs p "".

End FS.

(** ** Filename allocator *)

Section Allocator.

(** The existence oracle, [os.path.exists]. *)
Variable path_exists : string → bool.

(** [f"{base_name}{extension}"] *)
Definition plain_name (base_name extension : string) : string :=
  base_name +:+ extension.

(** [f"{base_name}_{counter}{extension}"] *)
Definition numbered_name (base_name extension : string) (counter : nat) : string :=
  base_name +:+ "_" +:+ pretty counter +:+ extension.

(** The [while True] loop, entered with [counter]. *)
Fixpoint probe (fuel : nat) (base_name extension : string) (counter : nat)
  : option string :=
  match fuel with
  | 0 => None
  | S fuel' =>
      let new_filename := numbered_name base_name extension counter in
      if negb (path_exists new_filename) then Some new_filename
      else probe fuel' base_name extension (counter + 1)
  end.

Definition get_unique_filename (fuel : nat) (base_name extension : string)
  : option string :=
  if negb (path_exists (plain_name base_name extension))
  then Some (plain_name base_name extension)
  else probe fuel base_name extension 1.

End Allocator.

(** [n] successive calls, each returned file being created before the next
    call. *)
Fixpoint allocate_many (fuel : nat) (fs : gmap string string)
    (base_name extension : string) (n : nat) : option (list string) :=
  match n with
  | 0 => Some []
  | S n' =>
      match get_unique_filename (FS.exists_ fs) fuel base_name extension with
      | None => None
      | Some r =>
          match allocate_many fuel (FS.touch fs r) base_name extension n' with
          | None => None
          | Some rs => Some (r :: rs)
          end
      end
  end.


(** ** Python strings *)

Module Py.

Definition code (c : ascii) : N := N_of_ascii c.

Definition in_range (lo hi : N) (c : ascii) : bool :=
  ((lo <=? code c) && (code c <=? hi))%N.

(** The one-byte characters for which [str.isspace] holds:
    U+0009..U+000D, U+001C..U+001F and U+0020. *)
Definition is_space1 (c : ascii) : bool :=
  in_range 9 13 c || in_range 28 32 c.

(** Last byte of the two-byte white space U+0085 and U+00A0
    (after the lead byte C2). *)
Definition is_space_C2 (c : ascii) : bool :=
  (code c =? 133)%N || (code c =? 160)%N.

(** Last byte of the three-byte white space U+2000..U+200A, U+2028,
    U+2029 and U+202F (after the bytes E2 80). *)
Definition is_space_E2_80 (c : ascii) : bool :=
  in_range 128 138 c || in_range 168 169 c || (code c =? 175)%N.

(** [s.lstrip()]: drops the leading white space characters. *)
Fixpoint lstrip (s : string) : string :=
  match s with
  | "" => ""
  | String c1 s1 =>
      if is_space1 c1 then lstrip s1
      else
        match s1 with
        | String c2 s2 =>
            if (code c1 =? 194)%N && is_space_C2 c2 then lstrip s2
            else
              match s2 with
              | String c3 s3 =>
                  if ((code c1 =? 225) && (code c2 =? 154) && (code c3 =? 128))%N
                     || ((code c1 =? 226)%N && (code c2 =? 128)%N && is_space_E2_80 c3)
                     || ((code c1 =? 226) && (code c2 =? 129) && (code c3 =? 159))%N
                     || ((code c1 =? 227) && (code c2 =? 128) && (code c3 =? 128))%N
                  then lstrip s3
                  else s
              | "" => s
              end
        | "" => s
        end
  end.

(** The same scan on the reversed string: the bytes of a character come
    last byte first. *)
Fixpoint lstrip_rev (s : string) : string :=
  match s with
  | "" => ""
  | String c1 s1 =>
      if is_space1 c1 then lstrip_rev s1
      else
        match s1 with
        | String c2 s2 =>
            if (code c2 =? 194)%N && is_space_C2 c1 then lstrip_rev s2
            else
              match s2 with
              | String c3 s3 =>
                  if ((code c3 =? 225) && (code c2 =? 154) && (code c1 =? 128))%N
                     || ((code c3 =? 226)%N && (code c2 =? 128)%N && is_space_E2_80 c1)
                     || ((code c3 =? 226) && (code c2 =? 129) && (code c1 =? 159))%N
                     || ((code c3 =? 227) && (code c2 =? 128) && (code c1 =? 128))%N
                  then lstrip_rev s3
                  else s
              | "" => s
              end
        | "" => s
        end
  end.

(** [s.rstrip()] *)
Definition rstrip (s : string) : string :=
  String.rev (lstrip_rev (String.rev s)).

(** [s.strip()] *)
Definition strip (s : string) : string := rstrip (lstrip s).

(** [sep.join(l)] *)
Fixpoint join (sep : string) (l : list string) : string :=
  match l with
  | [] => ""
  | [x] => x
  | x :: l' => x +:+ sep +:+ join sep l'
  end.

(** Truth value of an [Optional[str]]: [None] and [''] are false. *)
Definition truthy (o : option string) : bool :=
  match o with
  | None => false
  | Some s => negb (String.eqb s "")
  end.

End Py.

(** ** The BeautifulSoup tree *)

Module Bs4.

(** An element of the parsed tree. A [Tag] carries its name, its
    string-valued attributes ([attrs]), the tokens of its multi-valued
    [class] attribute ([class_], empty when the attribute is absent) and its
    children. [NavigableString] is a text node; [Comment] stands for the
    string nodes that [get_text] skips (comments, declarations, doctype). *)
Inductive PageElement : Type :=
| Tag (name : string) (attrs : gmap string string) (class_ : list string)
      (contents : list PageElement)
| NavigableString (s : string)
| Comment (s : string).

(** [tag.descendants]: every node below the tag, in document order
    (a node before its children, children from left to right). *)
Fixpoint descendants (e : PageElement) : list PageElement :=
  match e with
  | Tag _ _ _ contents =>
      (fix go (l : list PageElement) : list PageElement :=
         match l with
         | [] => []
         | c :: l' => c :: descendants c ++ go l'
         end) contents
  | _ => []
  end.

(** Does the multi-valued class attribute match the string [cls]?
    Some token equals it, or the tokens joined with spaces do. *)
Definition class_matches (cls : string) (tokens : list string) : bool :=
  existsb (String.eqb cls) tokens
  || (negb (Nat.eqb (length tokens) 0) && String.eqb cls (Py.join " " tokens)).

(** The test of [find_all(name, class_=cls)] on one element. *)
Definition matches (name cls : string) (e : PageElement) : bool :=
  match e with
  | Tag n _ tokens _ => String.eqb n name && class_matches cls tokens
  | _ => false
  end.

(** [e.find_all(name, class_=cls)] *)
Definition find_all (name cls : string) (e : PageElement) : list PageElement :=
  List.filter (matches name cls) (descendants e).

(** [e.find(name, class_=cls)]: the first result of [find_all], if any. *)
Definition find (name cls : string) (e : PageElement) : option PageElement :=
  head (find_all name cls e).

(** [tag.get(key)] *)
Definition get (key : string) (e : PageElement) : option string :=
  match e with
  | Tag _ attrs _ _ => attrs !! key
  | _ => None
  end.

(** The strings of [e._all_strings(strip=True)]: each text node below [e],
    stripped, the empty ones dropped. *)
Definition all_strings_strip (e : PageElement) : list string :=
  flat_map
    (λ d, match d with
          | NavigableString s =>
              let s' := Py.strip s in
              if Nat.eqb (String.length s') 0 then [] else [s']
          | _ => []
          end)
    (descendants e).

(** [e.get_text(strip=True)] *)
Definition get_text_strip (e : PageElement) : string :=
  Py.join "" (all_strings_strip e).

End Bs4.

(** ** The [json] module: [dump] with [indent=4, ensure_ascii=False], and
    [loads] on the documents it writes *)

Module Json.

(** The Python values the script serialises: [str], [list], and [dict]
    with [str] keys (in insertion order, keys distinct). *)
Inductive value : Type :=
| JStr (s : string)
| JList (lst : list value)
| JDict (dct : list (string * value)).

Definition dquote : ascii := "034".
Definition backslash : ascii := "092".
Definition newline : ascii := "010".

Definition str1 (c : ascii) : string := String c "".

(** *** Encoder *)

Definition hex_digit (n : N) : ascii :=
  if (n <? 10)%N then ascii_of_N (48 + n)%N else ascii_of_N (87 + n)%N.

(** [ESCAPE_DCT]: the replacement of the characters matched by [ESCAPE]
    (the backslash, the double quote and the control characters below
    U+0020); any other character is copied. *)
Definition escape_char (c : ascii) : string :=
  let n := Py.code c in
  if (n =? 92)%N then "\\"
  else if (n =? 34)%N then String backslash (str1 dquote)
  else if (n =? 8)%N then "\b"
  else if (n =? 12)%N then "\f"
  else if (n =? 10)%N then "\n"
  else if (n =? 13)%N then "\r"
  else if (n =? 9)%N then "\t"
  else if (n <? 32)%N
       then "\u00" +:+ String (hex_digit (n / 16)%N) (str1 (hex_digit (n mod 16)%N))
  else str1 c.

Fixpoint escape (s : string) : string :=
  match s with
  | "" => ""
  | String c s' => escape_char c +:+ escape s'
  end.

(** [py_encode_basestring] *)
Definition encode_basestring (s : string) : string :=
  String dquote (escape s +:+ str1 dquote).

Fixpoint repeat_string (s : string) (n : nat) : string :=
  match n with
  | 0 => ""
  | S n' => s +:+ repeat_string s n'
  end.

Section Encoder.

(** [_indent], [_item_separator] and [_key_separator] of
    [_make_iterencode]. *)
Variable _indent : string.
Variable _item_separator : string.
Variable _key_separator : string.

(** ['\n' + _indent * _current_indent_level] *)
Definition newline_indent (level : nat) : string :=
  String newline (repeat_string _indent level).

(** [_iterencode], with [_iterencode_list] and [_iterencode_dict]
    inlined, for an indent that is not [None]; the chunks are
    concatenated in the order they are yielded. *)
Fixpoint iterencode (v : value) (_current_indent_level : nat) : string :=
  match v with
  | JStr s => encode_basestring s
  | JList [] => "[]"
  | JList lst =>
      let level := S _current_indent_level in
      let separator := _item_separator +:+ newline_indent level in
      "[" +:+ newline_indent level
      +:+ (fix items (first : bool) (l : list value) : string :=
             match l with
             | [] => ""
             | x :: l' =>
                 (if first then "" else separator)
                 +:+ iterencode x level +:+ items false l'
             end) true lst
      +:+ newline_indent _current_indent_level +:+ "]"
  | JDict [] => "{}"
  | JDict dct =>
      let level := S _current_indent_level in
      let item_separator := _item_separator +:+ newline_indent level in
      "{" +:+ newline_indent level
      +:+ (fix items (first : bool) (l : list (string * value)) : string :=
             match l with
             | [] => ""
             | (key, x) :: l' =>
                 (if first then "" else item_separator)
                 +:+ encode_basestring key +:+ _key_separator
                 +:+ iterencode x level +:+ items false l'
             end) true dct
      +:+ newline_indent _current_indent_level +:+ "}"
  end.

End Encoder.

(** [json.dumps(v, indent=4, ensure_ascii=False)]: the text that
    [json.dump] writes. With an indent the item separator is a comma and
    the key separator a colon followed by a space. *)
Definition dumps_indent4 (v : value) : string :=
  iterencode (repeat_string " " 4) "," ": " v 0.

(** *** Decoder *)

(** [WHITESPACE = [ \t\n\r]*] *)
Definition is_ws (c : ascii) : bool :=
  let n := Py.code c in
  ((n =? 32) || (n =? 9) || (n =? 10) || (n =? 13))%N.

Fixpoint skip_ws (s : string) : string :=
  match s with
  | String c s' => if is_ws c then skip_ws s' else s
  | "" => ""
  end.

Definition hex_value (c : ascii) : option N :=
  let n := Py.code c in
  if Py.in_range 48 57 c then Some (n - 48)%N
  else if Py.in_range 97 102 c then Some (n - 87)%N
  else if Py.in_range 65 70 c then Some (n - 55)%N
  else None.

(** [_decode_uXXXX] *)
Definition hex4 (a b c d : ascii) : option N :=
  match hex_value a, hex_value b, hex_value c, hex_value d with
  | Some x, Some y, Some z, Some w => Some (((x * 16 + y) * 16 + z) * 16 + w)%N
  | _, _, _, _ => None
  end.

(** [chr(n)], as UTF-8 bytes. *)
Definition utf8 (n : N) : string :=
  let byte (k : N) := ascii_of_N k in
  if (n <? 128)%N then str1 (byte n)
  else if (n <? 2048)%N then
    String (byte (192 + n / 64)%N) (str1 (byte (128 + n mod 64)%N))
  else if (n <? 65536)%N then
    String (byte (224 + n / 4096)%N)
      (String (byte (128 + (n / 64) mod 64)%N) (str1 (byte (128 + n mod 64)%N)))
  else
    String (byte (240 + n / 262144)%N)
      (String (byte (128 + (n / 4096) mod 64)%N)
         (String (byte (128 + (n / 64) mod 64)%N)
            (str1 (byte (128 + n mod 64)%N)))).

(** [BACKSLASH]: the one-letter escapes. *)
Definition simple_escape (c : ascii) : option ascii :=
  let n := Py.code c in
  if (n =? 34)%N then Some dquote
  else if (n =? 92)%N then Some backslash
  else if (n =? 47)%N then Some "/"%char
  else if (n =? 98)%N then Some "008"%char
  else if (n =? 102)%N then Some "012"%char
  else if (n =? 110)%N then Some "010"%char
  else if (n =? 114)%N then Some "013"%char
  else if (n =? 116)%N then Some "009"%char
  else None.

Definition prepend (p : string) (r : option (string * string))
  : option (string * string) :=
  match r with
  | Some (s, rest) => Some (p +:+ s, rest)
  | None => None
  end.

(** [py_scanstring(s, end, strict=True)], entered after the opening quote:
    the decoded string and the text after the closing quote. [None] is a
    [JSONDecodeError], or an escaped lone surrogate, which has no UTF-8
    form. *)
Fixpoint scanstring (s : string) : option (string * string) :=
  match s with
  | "" => None
  | String c s1 =>
      if (Py.code c =? 34)%N then Some ("", s1)
      else if (Py.code c =? 92)%N then
        match s1 with
        | "" => None
        | String esc s2 =>
            if (Py.code esc =? 117)%N then
              match s2 with
              | String h1 (String h2 (String h3 (String h4 s6))) =>
                  match hex4 h1 h2 h3 h4 with
                  | None => None
                  | Some uni =>
                      if ((55296 <=? uni) && (uni <=? 56319))%N then
                        match s6 with
                        | String b (String u (String g1 (String g2
                            (String g3 (String g4 s12))))) =>
                            if ((Py.code b =? 92) && (Py.code u =? 117))%N then
                              match hex4 g1 g2 g3 g4 with
                              | None => None
                              | Some uni2 =>
                                  if ((56320 <=? uni2) && (uni2 <=? 57343))%N
                                  then prepend
                                         (utf8 (65536 + ((uni - 55296) * 1024
                                                         + (uni2 - 56320)))%N)
                                         (scanstring s12)
                                  else None
                              end
                            else None
                        | _ => None
                        end
                      else if ((56320 <=? uni) && (uni <=? 57343))%N then None
                      else prepend (utf8 uni) (scanstring s6)
                  end
              | _ => None
              end
            else
              match simple_escape esc with
              | Some ch => prepend (str1 ch) (scanstring s2)
              | None => None
              end
        end
      else if (Py.code c <? 32)%N then None
      else prepend (str1 c) (scanstring s1)
  end.

(** [dict(pairs)] on a list of pairs: a later value for a key already
    present replaces the earlier one, in place. *)
Fixpoint dict_set (k : string) (v : value) (d : list (string * value))
  : list (string * value) :=
  match d with
  | [] => [(k, v)]
  | (k', v') :: d' =>
      if String.eqb k k' then (k, v) :: d' else (k', v') :: dict_set k v d'
  end.

Definition dict_of_pairs (pairs : list (string * value)) : list (string * value) :=
  fold_left (λ d kv, dict_set kv.1 kv.2 d) pairs [].

(** [scan_once], [JSONArray] and [JSONObject] for strings, arrays and
    objects; numbers and the literals [null], [true] and [false], which the
    script never writes, are outside this model and give [None], as an
    error does. Each call and each loop iteration takes one unit of fuel. *)
Fixpoint scan_once (fuel : nat) (s : string) : option (value * string) :=
  match fuel with
  | 0 => None
  | S fuel' =>
      match s with
      | "" => None
      | String c s1 =>
          if (Py.code c =? 34)%N then
            match scanstring s1 with
            | Some (str, rest) => Some (JStr str, rest)
            | None => None
            end
          else if (Py.code c =? 91)%N then
            match skip_ws s1 with
            | String c' rest =>
                if (Py.code c' =? 93)%N then Some (JList [], rest)
                else
                  match array_items fuel' (String c' rest) with
                  | Some (vs, rest') => Some (JList vs, rest')
                  | None => None
                  end
            | "" => None
            end
          else if (Py.code c =? 123)%N then
            match skip_ws s1 with
            | String c' rest =>
                if (Py.code c' =? 125)%N then Some (JDict [], rest)
                else if (Py.code c' =? 34)%N then
                  match object_pairs fuel' rest with
                  | Some (pairs, rest') => Some (JDict (dict_of_pairs pairs), rest')
                  | None => None
                  end
                else None
            | "" => None
            end
          else None
      end
  end

(** The loop of [JSONArray], entered at the first character of a value. *)
with array_items (fuel : nat) (s : string) : option (list value * string) :=
  match fuel with
  | 0 => None
  | S fuel' =>
      match scan_once fuel' s with
      | None => None
      | Some (v, rest) =>
          match skip_ws rest with
          | String c rest' =>
              if (Py.code c =? 93)%N then Some ([v], rest')
              else if (Py.code c =? 44)%N then
                match array_items fuel' (skip_ws rest') with
                | Some (vs, rest'') => Some (v :: vs, rest'')
                | None => None
                end
              else None
          | "" => None
          end
      end
  end

(** The loop of [JSONObject], entered after the opening quote of a key. *)
with object_pairs (fuel : nat) (s : string)
  : option (list (string * value) * string) :=
  match fuel with
  | 0 => None
  | S fuel' =>
      match scanstring s with
      | None => None
      | Some (key, rest) =>
          match skip_ws rest with
          | String c rest1 =>
              if (Py.code c =? 58)%N then
                match scan_once fuel' (skip_ws rest1) with
                | None => None
                | Some (v, rest2) =>
                    match skip_ws rest2 with
                    | String c' rest3 =>
                        if (Py.code c' =? 125)%N then Some ([(key, v)], rest3)
                        else if (Py.code c' =? 44)%N then
                          match skip_ws rest3 with
                          | String q rest4 =>
                              if (Py.code q =? 34)%N then
                                match object_pairs fuel' rest4 with
                                | Some (pairs, rest5) =>
                                    Some ((key, v) :: pairs, rest5)
                                | None => None
                                end
                              else None
                          | "" => None
                          end
                        else None
                    | "" => None
                    end
                end
              else None
          | "" => None
          end
      end
  end.

(** [json.loads(s)]: one value between optional white space, and nothing
    after it. The length of the text bounds the number of calls. *)
Definition loads (s : string) : option value :=
  match scan_once (S (String.length s)) (skip_ws s) with
  | Some (v, rest) =>
      match skip_ws rest with
      | "" => Some v
      | _ => None
      end
  | None => None
  end.

End Json.

(** ** The extraction pipeline *)

(** The dict [{"name": ..., "price": ..., "image_url": ...}] appended to
    [nft_data]. *)
Record NftRecord : Type := {
  name : string;
  price : string;
  image_url : string
}.

(** The dict as the encoder sees it: the three keys in insertion order. *)
Definition record_value (r : NftRecord) : Json.value :=
  Json.JDict [("name", Json.JStr (name r));
              ("price", Json.JStr (price r));
              ("image_url", Json.JStr (image_url r))].

Definition collection_value (nft_data : list NftRecord) : Json.value :=
  Json.JList (record_value <$> nft_data).

(** The three lookups made on one card. *)
Definition image_url_of (item : Bs4.PageElement) : option string :=
  match Bs4.find "img" "LibraryMedia" item with
  | Some img_tag => Bs4.get "src" img_tag
  | None => None
  end.

Definition name_of (item : Bs4.PageElement) : string :=
  match Bs4.find "span" "NftItemNameContent__name" item with
  | Some name_tag => Bs4.get_text_strip name_tag
  | None => "Unknown Name"
  end.

Definition price_of (item : Bs4.PageElement) : string :=
  match Bs4.find "div" "LibraryCryptoPrice__amount" item with
  | Some price_tag => Bs4.get_text_strip price_tag
  | None => "Not Listed"
  end.

(** The body of the [for item in items] loop, on the list built so far. *)
Definition process_item (nft_data : list NftRecord) (item : Bs4.PageElement)
  : list NftRecord :=
  let image_url := image_url_of item in
  let name := name_of item in
  let price := price_of item in
  if Py.truthy image_url then
    match image_url with
    | Some url =>
        nft_data ++ [{| name := name; price := price; image_url := url |}]
    | None => nft_data
    end
  else nft_data.

(** [soup.find_all('div', class_='NftItemContainer')] *)
Definition select_items (soup : Bs4.PageElement) : list Bs4.PageElement :=
  Bs4.find_all "div" "NftItemContainer" soup.

(** The list [nft_data] after the loop. *)
Definition extract (soup : Bs4.PageElement) : list NftRecord :=
  fold_left process_item (select_items soup) [].

(** Exceptions raised by [open]. *)
Inductive exn : Type :=
| FileNotFoundError.

(** [open(p, 'r', encoding='utf-8').read()], on a directory of readable
    UTF-8 text files: the one failure is the missing file. *)
Definition read_file (fs : gmap string string) (p : string) : exn + string :=
  match fs !! p with
  | Some content => inr content
  | None => inl FileNotFoundError
  end.

(** What a run can observe and change: the files of the working directory
    and the lines printed so far. *)
Record World : Type := {
  files : gmap string string;
  stdout : list string
}.

Definition print (line : string) (w : World) : World :=
  {| files := files w; stdout := stdout w ++ [line] |}.

Definition write_file (p data : string) (w : World) : World :=
  {| files := FS.write (files w) p data; stdout := stdout w |}.

Definition html_file : string := "index.html".

Definition msg_not_found : string :=
  "❌ Ошибка: Файл '" +:+ html_file
  +:+ "' не найден. Сохраните HTML страницы в этот файл.".

Definition msg_success (count : nat) : string :=
  "✅ Успешно обработано! Найдено элементов: " +:+ pretty count.

Definition msg_saved (json_output_file : string) : string :=
  "📁 Результат сохранен в файл: " +:+ json_output_file.

Definition msg_empty : string :=
  "⚠️ NFT не найдены. Проверьте содержимое файла index.html".

Section Pipeline.

(** [BeautifulSoup(content, 'html.parser')], on the texts for which the
    parser builds a tree. *)
Variable BeautifulSoup : string → Bs4.PageElement.

(** [parse_html_to_json()]. [None]: the allocator's loop did not return
    within [fuel] iterations. [Some w]: the function returned, leaving the
    world [w]; [FileNotFoundError], the one exception [open] raises here, is
    caught. *)
Definition parse_html_to_json (fuel : nat) (w : World) : option World :=
  match get_unique_filename (FS.exists_ (files w)) fuel "nft_collection" ".json" with
  | None => None
  | Some json_output_file =>
      match read_file (files w) html_file with
      | inl FileNotFoundError => Some (print msg_not_found w)
      | inr content =>
          let soup := BeautifulSoup content in
          let nft_data := extract soup in
          match nft_data with
          | _ :: _ =>
              let w1 :=
                write_file json_output_file
                  (Json.dumps_indent4 (collection_value nft_data)) w in
              let w2 := print (msg_success (length nft_data)) w1 in
              Some (print (msg_saved json_output_file) w2)
          | [] => Some (print msg_empty w)
          end
      end
  end.

End Pipeline.

(** The record a card contributes, if any: a second reading of the loop
    body, as a partial function of the card alone. *)
Definition record_of (item : Bs4.PageElement) : option NftRecord :=
  match image_url_of item with
  | Some url =>
      if String.eqb url "" then None
      else Some {| name := name_of item; price := price_of item; image_url := url |}
  | None => None
  end.

(** The statement that a card is appended exactly when its [image_url] is
    not [None]. *)
Definition appended_iff_non_null (nft_data : list NftRecord)
    (item : Bs4.PageElement) : Prop :=
  (∃ r, process_item nft_data item = nft_data ++ [r]) ↔ image_url_of item ≠ None.

(** Sample trees. *)
Definition sample_card : Bs4.PageElement :=
  Bs4.Tag "div" ∅ ["NftItemContainer"]
    [Bs4.Tag "img" {[ "src" := "http://x/1.png" ]} ["LibraryMedia"] [];
     Bs4.Tag "span" ∅ ["NftItemNameContent__name"]
       [Bs4.NavigableString " Cool Cat "];
     Bs4.Tag "div" ∅ ["LibraryCryptoPrice__amount"]
       [Bs4.NavigableString "1.5 TON"]].

Definition bare_card : Bs4.PageElement :=
  Bs4.Tag "div" ∅ ["NftItemContainer"]
    [Bs4.Tag "img" {[ "src" := "http://x/2.png" ]} ["LibraryMedia"] []].

Definition empty_src_card : Bs4.PageElement :=
  Bs4.Tag "div" ∅ ["NftItemContainer"]
    [Bs4.Tag "img" {[ "src" := "" ]} ["LibraryMedia"] [];
     Bs4.Tag "span" ∅ ["NftItemNameContent__name"]
       [Bs4.NavigableString "Ghost"]].

Definition no_src_card : Bs4.PageElement :=
  Bs4.Tag "div" ∅ ["NftItemContainer"]
    [Bs4.Tag "img" {[ "alt" := "x" ]} ["LibraryMedia"] []].

Definition document (cards : list Bs4.PageElement) : Bs4.PageElement :=
  Bs4.Tag "[document]" ∅ [] cards.

Definition sample_record : NftRecord :=
  {| name := "Cool Cat"; price := "1.5 TON"; image_url := "http://x/1.png" |}.

(** ** The layout of the written document *)

Module Layout.

(** A line break followed by [n] spaces. *)
Definition line (n : nat) : string :=
  String Json.newline (Json.repeat_string " " n).

(** A key between double quotes, followed by a colon and a space. *)
Definition key (k : string) : string :=
  String Json.dquote (k +:+ Json.str1 Json.dquote) +:+ ": ".

(** One object: the keys [name], [price], [image_url] in this order, each
    on a line of its own at depth 8, the closing brace at depth 4. *)
Definition object (r : NftRecord) : string :=
  "{" +:+ line 8 +:+ key "name" +:+ Json.encode_basestring (name r)
  +:+ "," +:+ line 8 +:+ key "price" +:+ Json.encode_basestring (price r)
  +:+ "," +:+ line 8 +:+ key "image_url" +:+ Json.encode_basestring (image_url r)
  +:+ line 4 +:+ "}".

(** The array: the objects at depth 4, separated by commas, between
    brackets on lines of their own. *)
Definition array (nft_data : list NftRecord) : string :=
  "[" +:+ line 4 +:+ Py.join ("," +:+ line 4) (object <$> nft_data)
  +:+ line 0 +:+ "]".

(** A character that [ESCAPE] does not match. *)
Definition literal (c : ascii) : Prop :=
  (32 ≤ Py.code c)%N ∧ c ≠ Json.dquote ∧ c ≠ Json.backslash.

End Layout.

(** ** The written document, character by character *)

Module Written.

(** The line feed and the double quote. *)
Definition lf : string := String "010" "".
Definition quote : string := String "034" "".

(** A string value: its characters as [Json.escape] writes them, between
    double quotes. *)
Definition string_ (s : string) : string := quote +:+ Json.escape s +:+ quote.

(** One object: an opening brace, the three members [name], [price],
    [image_url] in this order, each on its own line behind 8 spaces, and the
    closing brace behind 4 spaces. *)
Definition object (r : NftRecord) : string :=
  "{" +:+ lf
  +:+ "        " +:+ quote +:+ "name" +:+ quote +:+ ": "
  +:+ string_ (name r) +:+ "," +:+ lf
  +:+ "        " +:+ quote +:+ "price" +:+ quote +:+ ": "
  +:+ string_ (price r) +:+ "," +:+ lf
  +:+ "        " +:+ quote +:+ "image_url" +:+ quote +:+ ": "
  +:+ string_ (image_url r) +:+ lf
  +:+ "    " +:+ "}".

(** The array: an opening bracket, the objects behind 4 spaces, each on a
    new line, with a comma after all but the last, and the closing bracket
    on a line of its own. *)
Definition array (nft_data : list NftRecord) : string :=
  "[" +:+ lf
  +:+ "    " +:+ String.concat ("," +:+ lf +:+ "    ") (object <$> nft_data)
  +:+ lf +:+ "]".

End Written.

(** The two loops of the encoder, by name. *)
Definition list_items (level : nat) : bool → list Json.value → string :=
  fix items (first : bool) (l : list Json.value) : string :=
    match l with
    | [] => ""
    | x :: l' =>
        (if first then "" else "," +:+ Json.newline_indent "    " level)
        +:+ Json.iterencode "    " "," ": " x level +:+ items false l'
    end.

Definition dict_items (level : nat) : bool → list (string * Json.value) → string :=
  fix items (first : bool) (l : list (string * Json.value)) : string :=
    match l with
    | [] => ""
    | (key, x) :: l' =>
        (if first then "" else "," +:+ Json.newline_indent "    " level)
        +:+ Json.encode_basestring key +:+ ": "
        +:+ Json.iterencode "    " "," ": " x level +:+ items false l'
    end.

(** A sample page and a parser that reads it; any other text gives a tree
    without cards. *)
Definition sample_html : string :=
  "<div class=NftItemContainer><img class=LibraryMedia src=http://x/1.png>"
  +:+ "<span class=NftItemNameContent__name> Cool Cat </span>"
  +:+ "<div class=LibraryCryptoPrice__amount>1.5 TON</div></div>".

Definition sample_parser (content : string) : Bs4.PageElement :=
  if String.eqb content sample_html then document [sample_card] else document [].

(** Sample states of the working directory. *)
Definition fresh_world : World :=
  {| files := {[ "index.html" := sample_html ]}; stdout := [] |}.

Definition used_world : World :=
  {| files := {[ "index.html" := sample_html;
                 "nft_collection.json" := "[]";
                 "nft_collection_1.json" := "[]" ]};
     stdout := [] |}.

Definition no_input_world : World :=
  {| files := {[ "nft_collection.json" := "[]" ]}; stdout := [] |}.

(** * Properties *)

(** ** Strings *)

Lemma string_app_nil_l (t : string) : "" +:+ t = t.
Proof. reflexivity. Qed.

Lemma string_app_cons (c : ascii) (s t : string) :
  String c s +:+ t = String c (s +:+ t).
Proof. reflexivity. Qed.

Lemma string_app_nil_r (s : string) : s +:+ "" = s.
Proof.
  induction s as [|c s IH]; [done|]. by rewrite string_app_cons, IH.
Qed.

Lemma string_app_assoc (s t u : string) : (s +:+ t) +:+ u = s +:+ t +:+ u.
Proof.
  induction s as [|c s IH]; [done|]. by rewrite !string_app_cons, IH.
Qed.

Lemma string_length_app (s t : string) :
  String.length (s +:+ t) = String.length s + String.length t.
Proof.
  induction s as [|c s IH]; [done|].
  rewrite string_app_cons. simpl. by rewrite IH.
Qed.

Lemma string_app_inj_r (s1 s2 t : string) : s1 +:+ t = s2 +:+ t → s1 = s2.
Proof.
  revert s2. induction s1 as [|c s1 IH]; intros [|d s2] H.
  - done.
  - apply (f_equal String.length) in H.
    rewrite !string_length_app in H. simpl in H. lia.
  - apply (f_equal String.length) in H.
    rewrite !string_length_app in H. simpl in H. lia.
  - rewrite !string_app_cons in H. injection H as -> H. f_equal. by apply IH.
Qed.

(** ** Repeated runs and trimmed text *)

(** [n] runs of the script, one after the other, on the world the previous
    run left. *)
Fixpoint run_many (BeautifulSoup : string → Bs4.PageElement) (fuel : nat)
    (w : World) (n : nat) : option World :=
  match n with
  | 0 => Some w
  | S n' =>
      match parse_html_to_json BeautifulSoup fuel w with
      | Some w1 => run_many BeautifulSoup fuel w1 n'
      | None => None
      end
  end.

Definition first_char (s : string) : option ascii :=
  match s with
  | String c _ => Some c
  | "" => None
  end.

Fixpoint last_char (s : string) : option ascii :=
  match s with
  | "" => None
  | String c s' =>
      match s' with
      | "" => Some c
      | String _ _ => last_char s'
      end
  end.

(** Neither the first nor the last character is one of the one-byte white
    space characters (space, tab, line feed, ...). *)
Definition trimmed (s : string) : bool :=
  match first_char s with
  | Some c => negb (Py.is_space1 c)
  | None => true
  end
  && match last_char s with
     | Some c => negb (Py.is_space1 c)
     | None => true
     end.

(** A character that must not begin (end) a stripped string. *)
Definition no_space (o : option ascii) : Prop :=
  ∀ c, o = Some c → Py.is_space1 c = false.

(** An element whose text nodes are all white space. *)
Definition blank (e : Bs4.PageElement) : Prop :=
  ∀ s, Bs4.NavigableString s ∈ Bs4.descendants e → Py.strip s = "".

Definition blank_name_card : Bs4.PageElement :=
  Bs4.Tag "div" ∅ ["NftItemContainer"]
    [Bs4.Tag "img" {[ "src" := "http://x/3.png" ]} ["LibraryMedia"] [];
     Bs4.Tag "span" ∅ ["NftItemNameContent__name"]
       [Bs4.NavigableString "  "; Bs4.Comment "no name yet"]].

Definition nested_card : Bs4.PageElement :=
  Bs4.Tag "div" ∅ ["NftItemContainer"] [Bs4.Tag "section" ∅ [] [bare_card]].

(** The world a run leaves from [used_world]. *)
Definition used_world_after : World :=
  {| files :=
       <["nft_collection_2.json" := Written.array [sample_record]]>
         (files used_world);
     stdout :=
       ["✅ Успешно обработано! Найдено элементов: 1";
        "📁 Результат сохранен в файл: nft_collection_2.json"] |}.

(** Normalisation of concatenations: constructors to the front, brackets to
    the right. *)
Ltac str_norm :=
  repeat first
    [ rewrite string_app_assoc
    | rewrite string_app_cons
    | rewrite string_app_nil_l
    | rewrite string_app_nil_r ].

(** ** The filename allocator *)

Lemma numbered_name_inj (base_name extension : string) :
  Inj (=) (=) (numbered_name base_name extension).
Proof.
  intros k1 k2 H. unfold numbered_name in H.
  apply (inj (String.app base_name)) in H.
  rewrite !string_app_cons, !string_app_nil_l in H.
  injection H as H. apply string_app_inj_r in H.
  by apply (inj pretty) in H.
Qed.




Lemma exists_false_lookup (fs : gmap string string) (p : string) :
  FS.exists_ fs p = false ↔ fs !! p = None.
Proof.
  unfold FS.exists_. rewrite bool_decide_eq_false, eq_None_not_Some. done.
Qed.

Section AllocatorFacts.

Variable path_exists : string → bool.
Variables base_name extension : string.

(** What the loop returns: the first counter, from the one it is entered
    with, whose name is free. *)
Lemma probe_Some (fuel c : nat) (r : string) :
  probe path_exists fuel base_name extension c = Some r →
  ∃ k, c ≤ k < c + fuel ∧ r = numbered_name base_name extension k ∧ path_exists r = false
       ∧ ∀ j, c ≤ j < k → path_exists (numbered_name base_name extension j) = true.
Proof.
  revert c. induction fuel as [|fuel IH]; intros c H; simpl in H.
  { done. }
  destruct (path_exists (numbered_name base_name extension c)) eqn:E; simpl in H.
  - destruct (IH _ H) as (k & Hk & -> & Hfree & Hbelow).
    exists k. split; [lia|]. split; [done|]. split; [done|].
    intros j Hj. destruct (decide (j = c)) as [->|]; [done|].
    apply Hbelow. lia.
  - injection H as <-. exists c. split; [lia|]. split; [done|]. split; [done|].
    intros j Hj. lia.
Qed.

Lemma probe_least (fuel c k : nat) :
  c ≤ k < c + fuel →
  path_exists (numbered_name base_name extension k) = false →
  (∀ j, c ≤ j < k → path_exists (numbered_name base_name extension j) = true) →
  probe path_exists fuel base_name extension c = Some (numbered_name base_name extension k).
Proof.
  revert c. induction fuel as [|fuel IH]; intros c Hk Hfree Hbelow.
  { lia. }
  simpl. destruct (decide (c = k)) as [->|Hne].
  - by rewrite Hfree.
  - rewrite Hbelow by lia. simpl. apply IH; [lia | done |].
    intros j Hj. apply Hbelow. lia.
Qed.

(** A free name within reach of the fuel makes the loop return. *)
Lemma probe_free (fuel c k : nat) :
  c ≤ k < c + fuel →
  path_exists (numbered_name base_name extension k) = false →
  is_Some (probe path_exists fuel base_name extension c).
Proof.
  revert c. induction fuel as [|fuel IH]; intros c Hk Hfree.
  { lia. }
  simpl. destruct (path_exists (numbered_name base_name extension c)) eqn:E; simpl; [|eauto].
  apply IH; [|done]. destruct (decide (c = k)) as [->|]; [congruence | lia].
Qed.

Lemma probe_fuel_irrel (fuel fuel' c : nat) (r : string) :
  probe path_exists fuel base_name extension c = Some r →
  fuel ≤ fuel' →
  probe path_exists fuel' base_name extension c = Some r.
Proof.
  intros H Hle. destruct (probe_Some _ _ _ H) as (k & Hk & -> & Hfree & Hbelow).
  apply probe_least; [lia | done | done].
Qed.

(** When every probed name is taken, the loop never returns. *)
Lemma probe_all_taken (fuel c : nat) :
  (∀ k, path_exists (numbered_name base_name extension k) = true) →
  probe path_exists fuel base_name extension c = None.
Proof.
  intros Hall. revert c. induction fuel as [|fuel IH]; intros c.
  { done. }
  simpl. rewrite Hall. simpl. apply IH.
Qed.

(** Pigeonhole: if the existing probed paths all lie in a list of [n]
    paths, one of any [n + 1] successive counters names a free path. *)
Lemma free_counter (existing : list string) (c : nat) :
  (∀ k, path_exists (numbered_name base_name extension k) = true → numbered_name base_name extension k ∈ existing) →
  ∃ k, c ≤ k ≤ c + length existing ∧ path_exists (numbered_name base_name extension k) = false.
Proof.
  intros Hfin.
  set (l := seq c (S (length existing))).
  destruct (decide (Forall (λ k, path_exists (numbered_name base_name extension k) = true) l))
    as [Hall|Hnot].
  - exfalso.
    assert (NoDup (numbered_name base_name extension <$> l)) as Hnd.
    { apply (NoDup_fmap_2 _ (Inj0 := numbered_name_inj _ _)), NoDup_seq. }
    assert (numbered_name base_name extension <$> l ⊆+ existing) as Hsub.
    { apply NoDup_submseteq; [done|].
      intros p (k & -> & Hk)%list_elem_of_fmap.
      apply Hfin. by eapply Forall_forall in Hall. }
    apply submseteq_length in Hsub.
    rewrite length_fmap in Hsub. unfold l in Hsub.
    rewrite length_seq in Hsub. lia.
  - apply not_Forall_Exists in Hnot; [|apply _].
    apply Exists_exists in Hnot as (k & Hk & Hfree).
    apply elem_of_seq in Hk. exists k. split; [lia|].
    simpl in Hfree. by destruct (path_exists (numbered_name base_name extension k)).
Qed.

Lemma get_unique_filename_Some (fuel : nat) (r : string) :
  get_unique_filename path_exists fuel base_name extension = Some r →
  path_exists r = false
  ∧ ((path_exists (plain_name base_name extension) = false ∧ r = plain_name base_name extension)
     ∨ (path_exists (plain_name base_name extension) = true
        ∧ ∃ k, 1 ≤ k ≤ fuel ∧ r = numbered_name base_name extension k
               ∧ ∀ j, 1 ≤ j < k → path_exists (numbered_name base_name extension j) = true)).
Proof.
  unfold get_unique_filename. destruct (path_exists (plain_name base_name extension)) eqn:E; simpl.
  - intros (k & Hk & -> & Hfree & Hbelow)%probe_Some.
    split; [done|]. right. split; [done|]. exists k.
    split; [lia|]. split; [done|]. exact Hbelow.
  - intros [= <-]. split; [done|]. by left.
Qed.

Lemma get_unique_filename_finite (existing : list string) :
  (∀ k, path_exists (numbered_name base_name extension k) = true → numbered_name base_name extension k ∈ existing) →
  ∃ r, ∀ fuel, length existing < fuel →
       get_unique_filename path_exists fuel base_name extension = Some r.
Proof.
  intros Hfin. unfold get_unique_filename.
  destruct (path_exists (plain_name base_name extension)) eqn:E; simpl; [|by eauto].
  destruct (free_counter existing 1 Hfin) as (k & Hk & Hfree).
  destruct (probe_free (S (length existing)) 1 k ltac:(lia) Hfree) as [r Hr].
  exists r. intros fuel Hfuel. eapply probe_fuel_irrel; [done | lia].
Qed.

End AllocatorFacts.

(** On a file system the existing paths are finitely many. *)
Lemma exists_elem_of_paths (fs : gmap string string) (p : string) :
  FS.exists_ fs p = true → p ∈ (map_to_list fs).*1.
Proof.
  unfold FS.exists_. intros [x Hx]%bool_decide_eq_true.
  apply list_elem_of_fmap. exists (p, x). split; [done|].
  by apply elem_of_map_to_list.
Qed.

Lemma length_paths (fs : gmap string string) :
  length (map_to_list fs).*1 = size fs.
Proof. by rewrite length_fmap, length_map_to_list. Qed.

Lemma get_unique_filename_total (fs : gmap string string)
    (base_name extension : string) :
  ∃ r, ∀ fuel, size fs < fuel →
       get_unique_filename (FS.exists_ fs) fuel base_name extension = Some r.
Proof.
  destruct (get_unique_filename_finite (FS.exists_ fs) base_name extension
              (map_to_list fs).*1) as [r Hr].
  - intros k. apply exists_elem_of_paths.
  - exists r. intros fuel Hfuel. apply Hr. by rewrite length_paths.
Qed.





(** C9: when the probed paths that exist all lie in a finite list, the
    allocator returns a path, for every fuel above the length of the list;
    its only outcomes are a returned path and a loop that goes on. *)
Theorem get_unique_filename_terminates (path_exists : string → bool)
    (base_name extension : string) (existing : list string) :
  (∀ k, path_exists (numbered_name base_name extension k) = true →
        numbered_name base_name extension k ∈ existing) →
  ∃ r, ∀ fuel, length existing < fuel →
       get_unique_filename path_exists fuel base_name extension = Some r.
Proof. apply get_unique_filename_finite. Qed.

(** The edge case the allocator does not handle: if the plain name and every
    numbered name exist, no amount of fuel makes it return. *)
Lemma get_unique_filename_diverges (path_exists : string → bool)
    (base_name extension : string) (fuel : nat) :
  path_exists (plain_name base_name extension) = true →
  (∀ k, path_exists (numbered_name base_name extension k) = true) →
  get_unique_filename path_exists fuel base_name extension = None.
Proof.
  intros Hplain Hall. unfold get_unique_filename. rewrite Hplain. simpl.
  by apply probe_all_taken.
Qed.

(** ** Extraction *)

Lemma truthy_Some (url : string) : Py.truthy (Some url) = negb (String.eqb url "").
Proof. reflexivity. Qed.

Lemma truthy_true (o : option string) :
  Py.truthy o = true ↔ ∃ url, o = Some url ∧ url ≠ "".
Proof.
  destruct o as [url|]; simpl.
  - rewrite negb_true_iff. split.
    + intros H. exists url. split; [done|]. by apply String.eqb_neq.
    + intros (? & [= <-] & Hne). by apply String.eqb_neq.
  - split; [done|]. by intros (? & ? & _).
Qed.

(** The loop body in terms of [record_of]. *)
Lemma process_item_record_of (nft_data : list NftRecord) (item : Bs4.PageElement) :
  process_item nft_data item
  = match record_of item with
    | Some r => nft_data ++ [r]
    | None => nft_data
    end.
Proof.
  unfold process_item, record_of.
  destruct (image_url_of item) as [url|]; [|done].
  rewrite truthy_Some. by destruct (String.eqb url "").
Qed.

Lemma fold_process_item (items : list Bs4.PageElement) (acc : list NftRecord) :
  fold_left process_item items acc = acc ++ omap record_of items.
Proof.
  revert acc. induction items as [|item items IH]; intros acc; simpl.
  - by rewrite app_nil_r.
  - rewrite IH, process_item_record_of.
    destruct (record_of item) as [r|]; [|done].
    by rewrite <- app_assoc.
Qed.

Lemma extract_omap (soup : Bs4.PageElement) :
  extract soup = omap record_of (select_items soup).
Proof. unfold extract. by rewrite fold_process_item. Qed.

Lemma record_of_Some (item : Bs4.PageElement) (r : NftRecord) :
  record_of item = Some r →
  image_url_of item = Some (image_url r) ∧ image_url r ≠ ""
  ∧ name r = name_of item ∧ price r = price_of item.
Proof.
  unfold record_of. destruct (image_url_of item) as [url|]; [|done].
  destruct (String.eqb url "") eqn:E; [done|].
  intros [= <-]. simpl. by apply String.eqb_neq in E.
Qed.

Lemma app_singleton_ne {A} (l : list A) (x : A) : l ++ [x] ≠ l.
Proof.
  intros H. apply (f_equal length) in H. rewrite length_app in H. simpl in H. lia.
Qed.

(** C1, as stated, fails on a card whose image has an empty [src]: its
    [image_url] is the empty string, not [None], and nothing is appended. *)
Lemma empty_src_not_appended : ¬ appended_iff_non_null [] empty_src_card.
Proof.
  unfold appended_iff_non_null. intros [_ H].
  destruct H as [r Hr]; [by vm_compute|].
  vm_compute in Hr. discriminate Hr.
Qed.

(** C1, amended: a card is appended exactly when its [image_url] is neither
    [None] nor empty; a card without an image element is never appended;
    every record of the collection has a non-empty [image_url]. *)
Theorem appended_iff_truthy :
  (∀ nft_data item,
      (∃ r, process_item nft_data item = nft_data ++ [r])
      ↔ (∃ url, image_url_of item = Some url ∧ url ≠ ""))
  ∧ (∀ nft_data item,
      Bs4.find "img" "LibraryMedia" item = None →
      process_item nft_data item = nft_data)
  ∧ (∀ soup r, r ∈ extract soup → image_url r ≠ "").
Proof.
  split; [|split].
  - intros nft_data item. rewrite process_item_record_of. split.
    + intros [r Hr]. destruct (record_of item) as [r'|] eqn:E.
      * apply record_of_Some in E as (Hurl & Hne & _). eauto.
      * by apply eq_sym, app_singleton_ne in Hr.
    + intros (url & Hurl & Hne). unfold record_of. rewrite Hurl.
      apply String.eqb_neq in Hne. rewrite Hne. eauto.
  - intros nft_data item Hfind. unfold process_item, image_url_of.
    by rewrite Hfind.
  - intros soup r. rewrite extract_omap.
    intros (item & _ & Hr)%list_elem_of_omap.
    by apply record_of_Some in Hr as (_ & Hne & _).
Qed.

(** C5: whenever an image with a non-empty [src] is found, a record is
    appended, whatever the other two lookups give; in an appended record a
    missing name element gives the name [Unknown Name] and a missing price
    element the price [Not Listed]. *)
Theorem missing_fields_default (nft_data : list NftRecord)
    (item img_tag : Bs4.PageElement) (url : string) :
  Bs4.find "img" "LibraryMedia" item = Some img_tag →
  Bs4.get "src" img_tag = Some url →
  url ≠ "" →
  ∃ r, process_item nft_data item = nft_data ++ [r]
       ∧ image_url r = url
       ∧ (Bs4.find "span" "NftItemNameContent__name" item = None →
          name r = "Unknown Name")
       ∧ (Bs4.find "div" "LibraryCryptoPrice__amount" item = None →
          price r = "Not Listed").
Proof.
  intros Himg Hsrc Hne.
  unfold process_item, image_url_of. rewrite Himg, Hsrc, truthy_Some.
  apply String.eqb_neq in Hne. rewrite Hne. simpl.
  eexists. split; [done|]. simpl. split; [done|].
  unfold name_of, price_of. split; by intros ->.
Qed.

(** C10: when the image element found has no [src], or an empty one, the
    extracted [image_url] is [None] or empty, the loop body leaves the list as
    it is, and the card contributes no record to the collection. *)
Theorem falsy_src_excluded (nft_data : list NftRecord)
    (item img_tag : Bs4.PageElement) :
  Bs4.find "img" "LibraryMedia" item = Some img_tag →
  Bs4.get "src" img_tag = None ∨ Bs4.get "src" img_tag = Some "" →
  (image_url_of item = None ∨ image_url_of item = Some "")
  ∧ process_item nft_data item = nft_data
  ∧ record_of item = None.
Proof.
  intros Himg Hsrc. unfold process_item, record_of, image_url_of.
  rewrite Himg. destruct Hsrc as [-> | ->]; simpl; auto.
Qed.

(** ** Selection and order *)

Lemma select_items_sublist (soup : Bs4.PageElement) :
  sublist (select_items soup) (Bs4.descendants soup).
Proof.
  unfold select_items, Bs4.find_all.
  induction (Bs4.descendants soup) as [|e l IH]; simpl; [constructor|].
  destruct (Bs4.matches _ _ e); by constructor.
Qed.

Lemma elem_of_select_items (soup e : Bs4.PageElement) :
  e ∈ select_items soup
  ↔ e ∈ Bs4.descendants soup ∧ Bs4.matches "div" "NftItemContainer" e = true.
Proof.
  unfold select_items, Bs4.find_all.
  rewrite !list_elem_of_In. apply filter_In.
Qed.

(** C7: the selection is the sequence of matching elements of the tree in
    document order; the collection is the sequence of the records of the
    selected cards, in that order; records may repeat. *)
Theorem collection_in_document_order :
  (∀ soup,
      select_items soup
      = List.filter (Bs4.matches "div" "NftItemContainer") (Bs4.descendants soup)
      ∧ sublist (select_items soup) (Bs4.descendants soup)
      ∧ (∀ e, e ∈ select_items soup
              ↔ e ∈ Bs4.descendants soup
                ∧ Bs4.matches "div" "NftItemContainer" e = true)
      ∧ extract soup = omap record_of (select_items soup))
  ∧ extract (document [sample_card; bare_card; sample_card])
    = [sample_record;
       {| name := "Unknown Name"; price := "Not Listed";
          image_url := "http://x/2.png" |};
       sample_record].
Proof.
  split.
  - intros soup. split; [done|]. split; [apply select_items_sublist|].
    split; [apply elem_of_select_items | apply extract_omap].
  - by vm_compute.
Qed.

(** ** The encoder *)


Lemma iterencode_list (x : Json.value) (l : list Json.value) (level : nat) :
  Json.iterencode "    " "," ": " (Json.JList (x :: l)) level
  = "[" +:+ Json.newline_indent "    " (S level)
    +:+ list_items (S level) true (x :: l)
    +:+ Json.newline_indent "    " level +:+ "]".
Proof. reflexivity. Qed.

Lemma iterencode_dict (kx : string * Json.value) (l : list (string * Json.value))
    (level : nat) :
  Json.iterencode "    " "," ": " (Json.JDict (kx :: l)) level
  = "{" +:+ Json.newline_indent "    " (S level)
    +:+ dict_items (S level) true (kx :: l)
    +:+ Json.newline_indent "    " level +:+ "}".
Proof. reflexivity. Qed.

Lemma iterencode_record (r : NftRecord) :
  Json.iterencode "    " "," ": " (record_value r) 1 = Layout.object r.
Proof.
  unfold record_value. rewrite iterencode_dict.
  unfold Layout.object, Layout.key, Layout.line. simpl.
  unfold Json.newline_indent. simpl. str_norm. reflexivity.
Qed.

Lemma newline_indent_line (level : nat) :
  Json.newline_indent "    " level = Layout.line (4 * level).
Proof.
  unfold Json.newline_indent, Layout.line. f_equal.
  induction level as [|level IH]; [done|].
  replace (4 * S level) with (S (S (S (S (4 * level))))) by lia.
  simpl. rewrite IH. by str_norm.
Qed.

Lemma list_items_records (r : NftRecord) (rs : list NftRecord) :
  Json.iterencode "    " "," ": " (record_value r) 1
  +:+ list_items 1 false (record_value <$> rs)
  = Py.join ("," +:+ Layout.line 4) (Layout.object <$> r :: rs).
Proof.
  revert r. induction rs as [|r' rs IH]; intros r.
  - change (list_items 1 false (record_value <$> [])) with "".
    by rewrite string_app_nil_r, iterencode_record.
  - change (list_items 1 false (record_value <$> r' :: rs))
      with (("," +:+ Json.newline_indent "    " 1)
            +:+ Json.iterencode "    " "," ": " (record_value r') 1
            +:+ list_items 1 false (record_value <$> rs)).
    rewrite IH, iterencode_record, (newline_indent_line 1). done.
Qed.

(** The document written for a non-empty collection. *)
Lemma dumps_layout (nft_data : list NftRecord) :
  nft_data ≠ [] →
  Json.dumps_indent4 (collection_value nft_data) = Layout.array nft_data.
Proof.
  destruct nft_data as [|r rs]; [done|]. intros _.
  unfold Json.dumps_indent4, collection_value.
  change (Json.repeat_string " " 4) with "    ".
  rewrite fmap_cons, iterencode_list.
  change (list_items 1 true (record_value r :: (record_value <$> rs)))
    with ("" +:+ Json.iterencode "    " "," ": " (record_value r) 1
          +:+ list_items 1 false (record_value <$> rs)).
  rewrite string_app_nil_l, list_items_records, !newline_indent_line.
  done.
Qed.

(** Characters outside the escape set are written as they are; this
    includes every byte of a non-ASCII character. *)
Lemma escape_char_literal (c : ascii) : Layout.literal c → Json.escape_char c = Json.str1 c.
Proof.
  intros (Hge & Hq & Hb). unfold Json.escape_char.
  assert (Py.code c ≠ 92%N) as H92.
  { intros H. apply Hb. apply (f_equal ascii_of_N) in H.
    unfold Py.code in H. by rewrite ascii_N_embedding in H. }
  assert (Py.code c ≠ 34%N) as H34.
  { intros H. apply Hq. apply (f_equal ascii_of_N) in H.
    unfold Py.code in H. by rewrite ascii_N_embedding in H. }
  repeat (case_match; [rewrite ?N.eqb_eq, ?N.ltb_lt in *; lia|]).
  done.
Qed.

Lemma escape_literal (s : string) :
  Forall Layout.literal (String.list_ascii_of_string s) → Json.escape s = s.
Proof.
  induction s as [|c s IH]; simpl; [done|].
  intros [Hc Hs]%Forall_cons. rewrite escape_char_literal by done.
  rewrite IH by done. by str_norm.
Qed.

Lemma non_ascii_literal (c : ascii) : (128 ≤ Py.code c)%N → Layout.literal c.
Proof.
  intros H. split; [lia|]. split; intros ->; vm_compute in H; by apply H.
Qed.

(** ** The decoder on the encoder's output *)

(** One escaped character is read back as the character. *)
Lemma scanstring_escape_char (c : ascii) (s : string) :
  Json.scanstring (Json.escape_char c +:+ s)
  = Json.prepend (Json.str1 c) (Json.scanstring s).
Proof.
  destruct c as [[] [] [] [] [] [] [] []]; reflexivity.
Qed.

Lemma scanstring_escape (s rest : string) :
  Json.scanstring (Json.escape s +:+ String Json.dquote rest) = Some (s, rest).
Proof.
  induction s as [|c s IH]; [done|].
  simpl Json.escape. rewrite string_app_assoc, scanstring_escape_char, IH.
  done.
Qed.

Lemma scan_once_string (fuel : nat) (s rest : string) :
  Json.scan_once (S fuel) (Json.encode_basestring s +:+ rest)
  = Some (Json.JStr s, rest).
Proof.
  unfold Json.encode_basestring, Json.str1. str_norm.
  simpl. by rewrite scanstring_escape.
Qed.

Lemma scan_once_record (fuel : nat) (r : NftRecord) (rest : string) :
  Json.scan_once (S (S (S (S (S fuel))))) (Layout.object r +:+ rest)
  = Some (record_value r, rest).
Proof.
  unfold Layout.object, Layout.key, Layout.line, Json.encode_basestring, Json.str1.
  simpl Json.repeat_string. str_norm.
  simpl. rewrite scanstring_escape.
  simpl. rewrite scanstring_escape.
  simpl. rewrite scanstring_escape.
  reflexivity.
Qed.

Lemma object_head (r : NftRecord) (s : string) :
  ∃ s', Layout.object r +:+ s = String "{" s'.
Proof. unfold Layout.object. str_norm. eauto. Qed.

Lemma array_items_S (fuel : nat) (s : string) :
  Json.array_items (S fuel) s
  = match Json.scan_once fuel s with
    | None => None
    | Some (v, rest) =>
        match Json.skip_ws rest with
        | String c rest' =>
            if (Py.code c =? 93)%N then Some ([v], rest')
            else if (Py.code c =? 44)%N then
              match Json.array_items fuel (Json.skip_ws rest') with
              | Some (vs, rest'') => Some (v :: vs, rest'')
              | None => None
              end
            else None
        | "" => None
        end
    end.
Proof. reflexivity. Qed.

Lemma skip_ws_line (n : nat) (s : string) :
  Json.skip_ws (Layout.line n +:+ s) = Json.skip_ws s.
Proof.
  unfold Layout.line. rewrite string_app_cons. simpl.
  induction n as [|n IH]; [done|].
  simpl Json.repeat_string. str_norm. simpl. exact IH.
Qed.

Lemma skip_ws_object (r : NftRecord) (s : string) :
  Json.skip_ws (Layout.object r +:+ s) = Layout.object r +:+ s.
Proof. destruct (object_head r s) as [s' ->]. reflexivity. Qed.

Lemma skip_ws_objects (r : NftRecord) (rs : list NftRecord) (s : string) :
  Json.skip_ws (Py.join ("," +:+ Layout.line 4) (Layout.object <$> r :: rs) +:+ s)
  = Py.join ("," +:+ Layout.line 4) (Layout.object <$> r :: rs) +:+ s.
Proof.
  destruct rs as [|r' rs].
  - apply skip_ws_object.
  - change (Py.join ("," +:+ Layout.line 4) (Layout.object <$> r :: r' :: rs))
      with (Layout.object r +:+ ("," +:+ Layout.line 4)
            +:+ Py.join ("," +:+ Layout.line 4) (Layout.object <$> r' :: rs)).
    rewrite string_app_assoc. apply skip_ws_object.
Qed.

Lemma array_items_records (rs : list NftRecord) :
  ∀ (r : NftRecord) (fuel : nat) (rest : string),
    length rs + 6 ≤ fuel →
    Json.array_items fuel
      (Py.join ("," +:+ Layout.line 4) (Layout.object <$> r :: rs)
       +:+ Layout.line 0 +:+ "]" +:+ rest)
    = Some (record_value <$> r :: rs, rest).
Proof.
  induction rs as [|r' rs IH]; intros r fuel rest Hfuel.
  - do 6 (destruct fuel as [|fuel]; [simpl in Hfuel; lia|]).
    change (Py.join ("," +:+ Layout.line 4) (Layout.object <$> [r]))
      with (Layout.object r).
    rewrite array_items_S, scan_once_record.
    reflexivity.
  - destruct fuel as [|fuel]; [simpl in Hfuel; lia|].
    assert (length rs + 6 ≤ fuel) as Hfuel' by (simpl in Hfuel; lia).
    change (Py.join ("," +:+ Layout.line 4) (Layout.object <$> r :: r' :: rs))
      with (Layout.object r +:+ ("," +:+ Layout.line 4)
            +:+ Py.join ("," +:+ Layout.line 4) (Layout.object <$> r' :: rs)).
    rewrite !string_app_assoc, array_items_S.
    destruct fuel as [|fuel]; [lia|].
    do 4 (destruct fuel as [|fuel]; [lia|]).
    rewrite scan_once_record.
    rewrite (string_app_cons "," "").
    change (Json.skip_ws (String "," ?x)) with (String "," x).
    cbv beta iota.
    change (Py.code "," =? 93)%N with false.
    change (Py.code "," =? 44)%N with true.
    cbv beta iota.
    rewrite string_app_nil_l, skip_ws_line, skip_ws_objects, IH by done.
    reflexivity.
Qed.

Lemma length_join_objects (r : NftRecord) (rs : list NftRecord) :
  length rs < String.length (Py.join ("," +:+ Layout.line 4) (Layout.object <$> r :: rs)).
Proof.
  revert r. induction rs as [|r' rs IH]; intros r.
  - destruct (object_head r "") as [s' Hs']. rewrite string_app_nil_r in Hs'.
    change (Py.join ("," +:+ Layout.line 4) (Layout.object <$> [r]))
      with (Layout.object r).
    rewrite Hs'. simpl. lia.
  - change (Py.join ("," +:+ Layout.line 4) (Layout.object <$> r :: r' :: rs))
      with (Layout.object r +:+ ("," +:+ Layout.line 4)
            +:+ Py.join ("," +:+ Layout.line 4) (Layout.object <$> r' :: rs)).
    rewrite !string_length_app. specialize (IH r').
    change (String.length ",") with 1. simpl length. lia.
Qed.

Lemma objects_head (r : NftRecord) (rs : list NftRecord) (s : string) :
  ∃ s', Py.join ("," +:+ Layout.line 4) (Layout.object <$> r :: rs) +:+ s
        = String "{" s'.
Proof.
  destruct rs as [|r' rs].
  - apply object_head.
  - change (Py.join ("," +:+ Layout.line 4) (Layout.object <$> r :: r' :: rs))
      with (Layout.object r +:+ ("," +:+ Layout.line 4)
            +:+ Py.join ("," +:+ Layout.line 4) (Layout.object <$> r' :: rs)).
    rewrite string_app_assoc. apply object_head.
Qed.

Lemma scan_once_bracket (fuel : nat) (s1 : string) (c : ascii) (rest : string) :
  Json.skip_ws s1 = String c rest →
  (Py.code c =? 93)%N = false →
  Json.scan_once (S fuel) (String "[" s1)
  = match Json.array_items fuel (String c rest) with
    | Some (vs, rest') => Some (Json.JList vs, rest')
    | None => None
    end.
Proof. intros H1 H2. simpl. by rewrite H1, H2. Qed.

(** Reading back the document written for a collection gives the
    collection. *)
Lemma loads_array (nft_data : list NftRecord) :
  nft_data ≠ [] →
  Json.loads (Layout.array nft_data) = Some (collection_value nft_data).
Proof.
  destruct nft_data as [|r rs]; [done|]. intros _.
  unfold Json.loads.
  pose proof (length_join_objects r rs) as Hlen.
  assert (length rs + 6 ≤ String.length (Layout.array (r :: rs))) as Hfuel.
  { unfold Layout.array. rewrite !string_length_app.
    change (String.length "[") with 1. change (String.length "]") with 1.
    change (String.length (Layout.line 4)) with 5.
    change (String.length (Layout.line 0)) with 1. lia. }
  revert Hfuel. generalize (String.length (Layout.array (r :: rs))) as fuel.
  intros fuel Hfuel. unfold Layout.array.
  rewrite (string_app_cons "[" ""), string_app_nil_l.
  change (Json.skip_ws (String "[" ?x)) with (String "[" x).
  destruct (objects_head r rs (Layout.line 0 +:+ "]")) as [s' Hs'].
  rewrite (scan_once_bracket fuel _ "{" s').
  - rewrite <- Hs'. rewrite <- (string_app_nil_r "]") at 1.
    rewrite array_items_records by done. reflexivity.
  - by rewrite skip_ws_line, skip_ws_objects.
  - reflexivity.
Qed.

Lemma loads_dumps_collection (nft_data : list NftRecord) :
  Json.loads (Json.dumps_indent4 (collection_value nft_data))
  = Some (collection_value nft_data).
Proof.
  destruct nft_data as [|r rs]; [reflexivity|].
  rewrite dumps_layout by done. by apply loads_array.
Qed.

Lemma collection_value_inj : Inj (=) (=) collection_value.
Proof.
  intros l1 l2 [= H]. revert l2 H.
  induction l1 as [|[n1 p1 u1] l1 IH]; intros [|[n2 p2 u2] l2] H; try done.
  simpl in H. injection H as -> -> -> H. f_equal. by apply IH.
Qed.

(** The layout, with every space and line feed written out. *)
Lemma join_concat (sep : string) (l : list string) :
  Py.join sep l = String.concat sep l.
Proof.
  induction l as [|x l IH]; [done|].
  destruct l as [|y l]; [done|].
  change (Py.join sep (x :: y :: l)) with (x +:+ sep +:+ Py.join sep (y :: l)).
  by rewrite IH.
Qed.

Lemma layout_object_written (r : NftRecord) : Layout.object r = Written.object r.
Proof.
  unfold Layout.object, Written.object, Written.string_, Written.quote,
    Written.lf, Layout.key, Layout.line, Json.encode_basestring, Json.str1.
  simpl Json.repeat_string. by str_norm.
Qed.

Lemma layout_written (nft_data : list NftRecord) :
  Layout.array nft_data = Written.array nft_data.
Proof.
  unfold Layout.array, Written.array, Written.lf, Layout.line.
  simpl Json.repeat_string. rewrite join_concat.
  assert (Layout.object <$> nft_data = Written.object <$> nft_data) as ->.
  { apply list_fmap_ext. intros i r _. apply layout_object_written. }
  by str_norm.
Qed.

Lemma escape_app (s1 s2 : string) :
  Json.escape (s1 +:+ s2) = Json.escape s1 +:+ Json.escape s2.
Proof.
  induction s1 as [|c s1 IH]; [done|].
  rewrite string_app_cons. simpl Json.escape.
  by rewrite IH, string_app_assoc.
Qed.

(** ** The pipeline *)

Section PipelineFacts.

Variable BeautifulSoup : string → Bs4.PageElement.

Lemma read_file_inl (fs : gmap string string) (p : string) (e : exn) :
  read_file fs p = inl e ↔ fs !! p = None.
Proof.
  unfold read_file. destruct (fs !! p); split; try done. by destruct e.
Qed.

Lemma parse_html_to_json_missing (w : World) (fuel : nat) :
  files w !! html_file = None →
  size (files w) < fuel →
  parse_html_to_json BeautifulSoup fuel w = Some (print msg_not_found w).
Proof.
  intros Hnone Hfuel. unfold parse_html_to_json.
  destruct (get_unique_filename_total (files w) "nft_collection" ".json")
    as [path Hpath].
  rewrite (Hpath fuel Hfuel). unfold read_file. by rewrite Hnone.
Qed.

Lemma parse_html_to_json_present (w : World) (content path : string)
    (fuel : nat) :
  files w !! html_file = Some content →
  get_unique_filename (FS.exists_ (files w)) fuel "nft_collection" ".json"
  = Some path →
  parse_html_to_json BeautifulSoup fuel w
  = Some
      match extract (BeautifulSoup content) with
      | [] => print msg_empty w
      | r :: rs =>
          print (msg_saved path)
            (print (msg_success (length (r :: rs)))
               (write_file path
                  (Json.dumps_indent4 (collection_value (r :: rs))) w))
      end.
Proof.
  intros Hsome Hpath. unfold parse_html_to_json.
  rewrite Hpath. unfold read_file. rewrite Hsome.
  by destruct (extract (BeautifulSoup content)).
Qed.

End PipelineFacts.

(** C3: when [index.html] is absent the run returns normally, for any fuel
    above the number of files; it leaves the files as they were and prints
    the error line of the script, and nothing else. *)
Theorem input_not_found (BeautifulSoup : string → Bs4.PageElement) (w : World)
    (fuel : nat) :
  files w !! "index.html" = None →
  size (files w) < fuel →
  parse_html_to_json BeautifulSoup fuel w
  = Some {| files := files w;
            stdout :=
              stdout w
              ++ ["❌ Ошибка: Файл 'index.html' не найден. Сохраните HTML страницы в этот файл."] |}.
Proof.
  intros Hnone Hfuel.
  by rewrite (parse_html_to_json_missing BeautifulSoup w fuel Hnone Hfuel).
Qed.

(** C4: when [index.html] is present, the run returns. With a non-empty
    collection it writes, at the allocated path (which did not exist), the
    array of objects with the keys [name], [price], [image_url] in this
    order, indented by 4 spaces a level, and prints the success line with the
    number of records and the line with the path. With an empty collection it
    prints the warning and leaves the files as they were. In every string
    value a byte of a non-ASCII character (128 or above) is written as it is,
    whatever surrounds it, and a string without control characters, quotes
    and backslashes is written unchanged. *)
Theorem write_or_warn :
  (∀ (BeautifulSoup : string → Bs4.PageElement) (w : World) (content : string),
      files w !! "index.html" = Some content →
      ∃ json_output_file,
        FS.exists_ (files w) json_output_file = false
        ∧ ∀ fuel, size (files w) < fuel →
            get_unique_filename (FS.exists_ (files w)) fuel "nft_collection" ".json"
            = Some json_output_file
            ∧ parse_html_to_json BeautifulSoup fuel w
              = Some
                  match extract (BeautifulSoup content) with
                  | [] =>
                      {| files := files w;
                         stdout :=
                           stdout w
                           ++ ["⚠️ NFT не найдены. Проверьте содержимое файла index.html"] |}
                  | r :: rs =>
                      {| files :=
                           <[json_output_file := Written.array (r :: rs)]> (files w);
                         stdout :=
                           stdout w
                           ++ ["✅ Успешно обработано! Найдено элементов: "
                               +:+ pretty (length (r :: rs));
                               "📁 Результат сохранен в файл: "
                               +:+ json_output_file] |}
                  end)
  ∧ (∀ (s1 : string) (c : ascii) (s2 : string),
       (128 ≤ N_of_ascii c)%N →
       Json.escape (s1 +:+ String c s2)
       = Json.escape s1 +:+ String c (Json.escape s2))
  ∧ (∀ s,
       Forall (λ c, (32 ≤ N_of_ascii c)%N ∧ c ≠ "034"%char ∧ c ≠ "092"%char)
         (String.list_ascii_of_string s) →
       Json.escape s = s).
Proof.
  split; [|split].
  - intros BeautifulSoup w content Hsome.
    destruct (get_unique_filename_total (files w) "nft_collection" ".json")
      as [path Hpath].
    exists path. split.
    { specialize (Hpath (S (size (files w))) ltac:(lia)).
      by apply get_unique_filename_Some in Hpath as [? _]. }
    intros fuel Hfuel. split; [by apply Hpath|].
    rewrite (parse_html_to_json_present _ w content path) by auto.
    f_equal. destruct (extract (BeautifulSoup content)) as [|r rs]; [done|].
    rewrite dumps_layout, layout_written by done.
    unfold print, write_file, FS.write. simpl. by rewrite <- app_assoc.
  - intros s1 c s2 Hc.
    rewrite escape_app. simpl Json.escape.
    rewrite (escape_char_literal c) by by apply non_ascii_literal.
    unfold Json.str1. by rewrite string_app_cons, string_app_nil_l.
  - intros s Hs. by apply escape_literal.
Qed.

(** C6: the document written for a non-empty collection, read back with
    [json.loads], is the collection: the same objects in the same order, with
    the same keys and values. *)
Theorem written_document_round_trip
    (BeautifulSoup : string → Bs4.PageElement) (w : World) (content : string) :
  files w !! html_file = Some content →
  extract (BeautifulSoup content) ≠ [] →
  ∃ json_output_file doc,
    (∀ fuel, size (files w) < fuel →
       ∃ w', parse_html_to_json BeautifulSoup fuel w = Some w'
             ∧ files w' !! json_output_file = Some doc)
    ∧ Json.loads doc = Some (collection_value (extract (BeautifulSoup content)))
    ∧ (∀ nft_data,
         Json.loads doc = Some (collection_value nft_data) →
         nft_data = extract (BeautifulSoup content)).
Proof.
  intros Hsome Hne.
  destruct (get_unique_filename_total (files w) "nft_collection" ".json")
    as [path Hpath].
  exists path, (Json.dumps_indent4 (collection_value (extract (BeautifulSoup content)))).
  split; [|split].
  - intros fuel Hfuel.
    rewrite (parse_html_to_json_present _ w content path) by auto.
    destruct (extract (BeautifulSoup content)) as [|r rs]; [done|].
    eexists. split; [done|]. simpl. unfold FS.write. by rewrite lookup_insert_eq.
  - apply loads_dumps_collection.
  - intros nft_data. rewrite loads_dumps_collection. intros H.
    symmetry. apply collection_value_inj. congruence.
Qed.

(** ** Instances on the sample data *)


Lemma get_unique_filename_terminates_witness :
  ∃ r, ∀ fuel, length (map_to_list (files used_world)).*1 < fuel →
       get_unique_filename (FS.exists_ (files used_world)) fuel
         "nft_collection" ".json" = Some r.
Proof.
  apply (get_unique_filename_terminates (FS.exists_ (files used_world))
           "nft_collection" ".json" (map_to_list (files used_world)).*1).
  intros k. apply exists_elem_of_paths.
Defined.

Lemma input_not_found_witness :
  parse_html_to_json sample_parser 2 no_input_world
  = Some {| files := files no_input_world;
            stdout :=
              ["❌ Ошибка: Файл 'index.html' не найден. Сохраните HTML страницы в этот файл."] |}.
Proof.
  apply (input_not_found sample_parser no_input_world 2).
  - reflexivity.
  - vm_compute. lia.
Defined.

Lemma missing_fields_default_witness :
  ∃ r, process_item [sample_record] bare_card = [sample_record] ++ [r]
       ∧ image_url r = "http://x/2.png"
       ∧ (Bs4.find "span" "NftItemNameContent__name" bare_card = None →
          name r = "Unknown Name")
       ∧ (Bs4.find "div" "LibraryCryptoPrice__amount" bare_card = None →
          price r = "Not Listed").
Proof.
  apply (missing_fields_default [sample_record] bare_card
           (Bs4.Tag "img" {[ "src" := "http://x/2.png" ]} ["LibraryMedia"] [])
           "http://x/2.png").
  - vm_compute. reflexivity.
  - vm_compute. reflexivity.
  - discriminate.
Defined.

Lemma falsy_src_excluded_witness :
  (image_url_of empty_src_card = None ∨ image_url_of empty_src_card = Some "")
  ∧ process_item [sample_record] empty_src_card = [sample_record]
  ∧ record_of empty_src_card = None.
Proof.
  apply (falsy_src_excluded [sample_record] empty_src_card
           (Bs4.Tag "img" {[ "src" := "" ]} ["LibraryMedia"] [])).
  - vm_compute. reflexivity.
  - right. vm_compute. reflexivity.
Defined.

Lemma written_document_round_trip_witness :
  ∃ json_output_file doc,
    (∀ fuel, size (files used_world) < fuel →
       ∃ w', parse_html_to_json sample_parser fuel used_world = Some w'
             ∧ files w' !! json_output_file = Some doc)
    ∧ Json.loads doc = Some (collection_value (extract (sample_parser sample_html)))
    ∧ (∀ nft_data,
         Json.loads doc = Some (collection_value nft_data) →
         nft_data = extract (sample_parser sample_html)).
Proof.
  apply (written_document_round_trip sample_parser used_world sample_html).
  - vm_compute. reflexivity.
  - vm_compute. discriminate.
Defined.

(** The scenarios of the specification. *)

Example numbered_name_12 :
  numbered_name "nft_data" ".json" 12 = "nft_data_12.json".
Proof. reflexivity. Qed.

Example allocator_skips_used_names :
  get_unique_filename (FS.exists_ (files used_world)) 4 "nft_collection" ".json"
  = Some "nft_collection_2.json".
Proof. vm_compute. reflexivity. Qed.

Example strip_unicode_space :
  Py.strip (String "009" (String "194" (String "160" "1.5 TON"))
            +:+ String "227" (String "128" (String "128" (String "010" ""))))
  = "1.5 TON".
Proof. vm_compute. reflexivity. Qed.

Example scenario_full_card : extract (document [sample_card]) = [sample_record].
Proof. vm_compute. reflexivity. Qed.

Example scenario_defaults :
  extract (document [bare_card])
  = [{| name := "Unknown Name"; price := "Not Listed";
        image_url := "http://x/2.png" |}].
Proof. vm_compute. reflexivity. Qed.

Example scenario_no_src : extract (document [no_src_card; empty_src_card]) = [].
Proof. vm_compute. reflexivity. Qed.

Example scenario_run :
  parse_html_to_json sample_parser 1 fresh_world
  = Some {| files := <["nft_collection.json" := Layout.array [sample_record]]>
                       (files fresh_world);
            stdout := [msg_success 1; msg_saved "nft_collection.json"] |}.
Proof. vm_compute. reflexivity. Qed.

Example scenario_no_cards :
  parse_html_to_json sample_parser 1
    {| files := {[ "index.html" := "<p>nothing</p>" ]}; stdout := [] |}
  = Some {| files := {[ "index.html" := "<p>nothing</p>" ]};
            stdout := [msg_empty] |}.
Proof. vm_compute. reflexivity. Qed.

Example loads_rejects_control_character :
  Json.loads (String Json.dquote (String "010" (String Json.dquote ""))) = None.
Proof. vm_compute. reflexivity. Qed.

(** * Further properties *)

(** ** The allocator *)

Lemma probe_taken_from (path_exists : string → bool)
    (base_name extension : string) (fuel c : nat) :
  (∀ k, c ≤ k → path_exists (numbered_name base_name extension k) = true) →
  probe path_exists fuel base_name extension c = None.
Proof.
  revert c. induction fuel as [|fuel IH]; intros c Hall.
  { done. }
  simpl. rewrite Hall by lia. simpl. apply IH. intros k Hk. apply Hall. lia.
Qed.

(** X1: the allocator fails to return, whatever the fuel, exactly when
    [base.ext] and every [base_k.ext] with [k >= 1] exist. *)
Theorem get_unique_filename_never_returns_iff (path_exists : string → bool)
    (base_name extension : string) :
  (∀ fuel, get_unique_filename path_exists fuel base_name extension = None)
  ↔ path_exists (plain_name base_name extension) = true
    ∧ ∀ k, 1 ≤ k → path_exists (numbered_name base_name extension k) = true.
Proof.
  split.
  - intros Hnone.
    assert (path_exists (plain_name base_name extension) = true) as Hplain.
    { specialize (Hnone 0). unfold get_unique_filename in Hnone.
      by destruct (path_exists (plain_name base_name extension)). }
    split; [done|]. intros k Hk.
    destruct (path_exists (numbered_name base_name extension k)) eqn:E; [done|].
    specialize (Hnone k). unfold get_unique_filename in Hnone.
    rewrite Hplain in Hnone. simpl in Hnone.
    destruct (probe_free path_exists base_name extension k 1 k ltac:(lia) E)
      as [r Hr].
    congruence.
  - intros [Hplain Hall] fuel. unfold get_unique_filename.
    rewrite Hplain. simpl. by apply probe_taken_from.
Qed.

Lemma probe_ext (pe1 pe2 : string → bool) (base_name extension : string)
    (fuel c : nat) :
  (∀ k, c ≤ k →
        pe1 (numbered_name base_name extension k)
        = pe2 (numbered_name base_name extension k)) →
  probe pe1 fuel base_name extension c = probe pe2 fuel base_name extension c.
Proof.
  revert c. induction fuel as [|fuel IH]; intros c Heq.
  { done. }
  simpl. rewrite (Heq c) by lia. rewrite (IH (c + 1)); [done|].
  intros k Hk. apply Heq. lia.
Qed.

(** X2: the allocator consults the existence test at [base.ext] and at
    the [base_k.ext] with [k >= 1] only: under two existence tests that agree
    on these paths it behaves the same, whatever they say of other paths. *)
Theorem get_unique_filename_probed_paths_only (pe1 pe2 : string → bool)
    (base_name extension : string) (fuel : nat) :
  pe1 (plain_name base_name extension) = pe2 (plain_name base_name extension) →
  (∀ k, 1 ≤ k →
        pe1 (numbered_name base_name extension k)
        = pe2 (numbered_name base_name extension k)) →
  get_unique_filename pe1 fuel base_name extension
  = get_unique_filename pe2 fuel base_name extension.
Proof.
  intros Hplain Hnum. unfold get_unique_filename.
  rewrite Hplain. by rewrite (probe_ext pe1 pe2 base_name extension fuel 1).
Qed.

Lemma size_touch_fresh (fs : gmap string string) (p : string) :
  FS.exists_ fs p = false → size (FS.touch fs p) = S (size fs).
Proof.
  intros Hfree%exists_false_lookup. unfold FS.touch, FS.write.
  by apply map_size_insert_None.
Qed.

Lemma lookup_touch_fresh (fs : gmap string string) (p q : string) :
  FS.touch fs p !! q = None → fs !! q = None.
Proof.
  unfold FS.touch, FS.write. intros H.
  destruct (decide (p = q)) as [->|Hne].
  - by rewrite lookup_insert_eq in H.
  - by rewrite lookup_insert_ne in H.
Qed.

(** X3: from any file system, [n] calls with the returned file created
    after each call all return (with fuel from the number of files plus [n]
    on), and the [n] names are pairwise distinct and name no file that
    existed at the start. *)
Theorem allocate_many_fresh (base_name extension : string) (n : nat) :
  ∀ (fs : gmap string string) (fuel : nat),
    size fs + n ≤ fuel →
    ∃ rs, allocate_many fuel fs base_name extension n = Some rs
          ∧ length rs = n
          ∧ NoDup rs
          ∧ ∀ r, r ∈ rs → fs !! r = None.
Proof.
  induction n as [|n IH]; intros fs fuel Hfuel.
  { exists []. split; [done|]. split; [done|]. split; [constructor|].
    intros r Hr. by apply elem_of_nil in Hr. }
  destruct (get_unique_filename_total fs base_name extension) as [r Hr].
  specialize (Hr fuel ltac:(lia)).
  pose proof (get_unique_filename_Some _ _ _ _ _ Hr) as [Hfree _].
  destruct (IH (FS.touch fs r) fuel) as (rs & Hrs & Hlen & Hnd & Hfresh).
  { rewrite size_touch_fresh by done. lia. }
  exists (r :: rs). simpl. rewrite Hr, Hrs.
  split; [done|]. split; [by rewrite Hlen|]. split.
  - constructor; [|done]. intros Hin. apply Hfresh in Hin.
    unfold FS.touch, FS.write in Hin. by rewrite lookup_insert_eq in Hin.
  - intros r' [->|Hin]%elem_of_cons.
    + by apply exists_false_lookup.
    + by eapply lookup_touch_fresh, Hfresh.
Qed.

(** ** The pipeline and existing files *)

Lemma run_success (BeautifulSoup : string → Bs4.PageElement) (w : World)
    (content : string) :
  files w !! html_file = Some content →
  extract (BeautifulSoup content) ≠ [] →
  ∃ path,
    files w !! path = None
    ∧ ∀ fuel, size (files w) < fuel →
        parse_html_to_json BeautifulSoup fuel w
        = Some {| files :=
                    <[path := Json.dumps_indent4
                                (collection_value (extract (BeautifulSoup content)))]>
                      (files w);
                  stdout :=
                    stdout w
                    ++ [msg_success (length (extract (BeautifulSoup content)));
                        msg_saved path] |}.
Proof.
  intros Hsome Hne.
  destruct (get_unique_filename_total (files w) "nft_collection" ".json")
    as [path Hpath].
  exists path. split.
  - specialize (Hpath (S (size (files w))) ltac:(lia)).
    apply get_unique_filename_Some in Hpath as [Hfree _].
    by apply exists_false_lookup.
  - intros fuel Hfuel.
    rewrite (parse_html_to_json_present _ w content path) by auto.
    destruct (extract (BeautifulSoup content)) as [|r rs]; [done|].
    unfold print, write_file, FS.write. simpl. by rewrite <- app_assoc.
Qed.

(** X4: a run that returns has removed and changed no file that existed:
    every file of the world before is in the world after with the same
    contents, at most one file is new, and the lines printed before stay in
    front. *)
Theorem run_keeps_files (BeautifulSoup : string → Bs4.PageElement)
    (w w' : World) (fuel : nat) :
  parse_html_to_json BeautifulSoup fuel w = Some w' →
  files w ⊆ files w'
  ∧ size (files w') ≤ S (size (files w))
  ∧ stdout w `prefix_of` stdout w'.
Proof.
  unfold parse_html_to_json.
  destruct (get_unique_filename _ fuel _ _) as [path|] eqn:Hpath; [|done].
  apply get_unique_filename_Some in Hpath as [Hfree%exists_false_lookup _].
  unfold read_file. destruct (files w !! html_file) as [content|].
  - destruct (extract (BeautifulSoup content)) as [|r rs]; intros [= <-]; simpl.
    + split; [done|]. split; [lia|]. by apply prefix_app_r.
    + unfold FS.write. split; [by apply insert_subseteq|].
      split; [by rewrite map_size_insert_None|].
      rewrite <- app_assoc. by apply prefix_app_r.
  - intros [= <-]. simpl. split; [done|]. split; [lia|]. by apply prefix_app_r.
Qed.

(** X5: [n] runs in a row on a page that yields records all succeed; they
    write [n] files of pairwise distinct names, none of which existed at the
    start, all with the same document; the files that existed are kept. *)
Theorem run_many_outputs (BeautifulSoup : string → Bs4.PageElement)
    (content : string) (n : nat) :
  extract (BeautifulSoup content) ≠ [] →
  ∀ (w : World) (fuel : nat),
    files w !! html_file = Some content →
    size (files w) + n ≤ fuel →
    ∃ w' paths,
      run_many BeautifulSoup fuel w n = Some w'
      ∧ length paths = n
      ∧ NoDup paths
      ∧ (∀ p, p ∈ paths →
              files w !! p = None
              ∧ files w' !! p
                = Some (Json.dumps_indent4
                          (collection_value (extract (BeautifulSoup content)))))
      ∧ files w ⊆ files w'
      ∧ size (files w') = size (files w) + n.
Proof.
  intros Hne. induction n as [|n IH]; intros w fuel Hfile Hfuel.
  { exists w, []. split; [done|]. split; [done|]. split; [constructor|].
    split; [|split; [done | simpl; lia]].
    intros p Hp. by apply elem_of_nil in Hp. }
  destruct (run_success BeautifulSoup w content Hfile Hne)
    as (path & Hfree & Hrun).
  specialize (Hrun fuel ltac:(lia)).
  set (doc := Json.dumps_indent4
                (collection_value (extract (BeautifulSoup content)))) in *.
  set (w1 := {| files := <[path := doc]> (files w);
                stdout := stdout w
                          ++ [msg_success (length (extract (BeautifulSoup content)));
                              msg_saved path] |}) in *.
  assert (path ≠ html_file) as Hpath by congruence.
  destruct (IH w1 fuel) as (w' & paths & Hmany & Hlen & Hnd & Hpaths & Hsub & Hsize).
  { simpl. by rewrite lookup_insert_ne. }
  { simpl. rewrite map_size_insert_None by done. lia. }
  simpl in Hpaths, Hsub, Hsize.
  rewrite map_size_insert_None in Hsize by done.
  exists w', (path :: paths). simpl. rewrite Hrun.
  split; [done|]. split; [by rewrite Hlen|]. split; [|split; [|split]].
  - constructor; [|done]. intros Hin. apply Hpaths in Hin as [Hin _].
    by rewrite lookup_insert_eq in Hin.
  - intros p [->|Hin]%elem_of_cons.
    + split; [done|]. eapply lookup_weaken; [|exact Hsub].
      by rewrite lookup_insert_eq.
    + apply Hpaths in Hin as [Hnone Hdoc]. split; [|done].
      by apply lookup_insert_None in Hnone as [? _].
  - etrans; [|exact Hsub]. by apply insert_subseteq.
  - lia.
Qed.

(** ** The size of the collection *)

Lemma record_of_is_Some (item : Bs4.PageElement) :
  is_Some (record_of item) ↔ Py.truthy (image_url_of item) = true.
Proof.
  unfold record_of. destruct (image_url_of item) as [url|]; simpl.
  - destruct (String.eqb url ""); simpl;
      (split; [intros [r Hr]; by try done | intros H; by eauto]).
  - split; [by intros [? ?] | done].
Qed.

Lemma length_omap_record_of (items : list Bs4.PageElement) :
  length (omap record_of items)
  = length (List.filter (λ item, Py.truthy (image_url_of item)) items).
Proof.
  induction items as [|item items IH]; [done|]. simpl.
  pose proof (record_of_is_Some item) as H.
  destruct (record_of item) as [r|], (Py.truthy (image_url_of item)); simpl.
  - f_equal. exact IH.
  - discriminate (proj1 H ltac:(eauto)).
  - by destruct (proj2 H eq_refl) as [? ?].
  - exact IH.
Qed.

(** X6: the number of records, which the run prints, is the number of
    selected cards whose [image_url] is truthy; the collection is empty
    exactly when no selected card has a truthy [image_url]. *)
Theorem extract_count (soup : Bs4.PageElement) :
  length (extract soup)
  = length (List.filter (λ item, Py.truthy (image_url_of item))
              (select_items soup))
  ∧ (extract soup = []
     ↔ ∀ item, item ∈ select_items soup →
               Py.truthy (image_url_of item) = false).
Proof.
  rewrite extract_omap. split; [apply length_omap_record_of|].
  induction (select_items soup) as [|item items IH]; simpl.
  - split; [|done]. intros _ item Hin. by apply elem_of_nil in Hin.
  - pose proof (record_of_is_Some item) as H. split.
    + intros Hnil item' [->|Hin]%elem_of_cons.
      * destruct (record_of item) as [r|]; [done|].
        destruct (Py.truthy (image_url_of item)); [|done].
        by destruct (proj2 H eq_refl) as [? ?].
      * destruct (record_of item) as [r|]; [done|]. by apply IH.
    + intros Hall. destruct (record_of item) as [r|] eqn:E.
      * rewrite (Hall item) in H by left. discriminate (proj1 H ltac:(eauto)).
      * apply IH. intros item' Hin. apply Hall. by right.
Qed.

(** ** Blank elements *)

Lemma all_strings_strip_blank (e : Bs4.PageElement) :
  blank e → Bs4.all_strings_strip e = [].
Proof.
  unfold blank, Bs4.all_strings_strip. intros Hblank.
  induction (Bs4.descendants e) as [|d l IH]; [done|].
  change (flat_map ?f (d :: l)) with (f d ++ flat_map f l).
  rewrite IH.
  - destruct d as [| s |]; try done.
    rewrite (Hblank s) by left. done.
  - intros s Hs. apply Hblank. by right.
Qed.

Lemma get_text_strip_blank (e : Bs4.PageElement) :
  blank e → Bs4.get_text_strip e = "".
Proof.
  intros Hblank. unfold Bs4.get_text_strip.
  by rewrite all_strings_strip_blank.
Qed.

(** X7: the defaults stand for a missing element only. When the name
    (price) element is found but holds no text other than white space, the
    record appended has the empty string as its name (price). *)
Theorem blank_fields_empty (nft_data : list NftRecord)
    (item img_tag : Bs4.PageElement) (url : string) :
  Bs4.find "img" "LibraryMedia" item = Some img_tag →
  Bs4.get "src" img_tag = Some url →
  url ≠ "" →
  ∃ r, process_item nft_data item = nft_data ++ [r]
       ∧ (∀ name_tag,
            Bs4.find "span" "NftItemNameContent__name" item = Some name_tag →
            blank name_tag → name r = "")
       ∧ (∀ price_tag,
            Bs4.find "div" "LibraryCryptoPrice__amount" item = Some price_tag →
            blank price_tag → price r = "").
Proof.
  intros Himg Hsrc Hne.
  unfold process_item, image_url_of. rewrite Himg, Hsrc, truthy_Some.
  apply String.eqb_neq in Hne. rewrite Hne. simpl.
  eexists. split; [done|]. simpl. unfold name_of, price_of.
  split; intros t -> Hblank; by apply get_text_strip_blank.
Qed.

(** ** Nested elements *)

Lemma PageElement_nested_ind (P : Bs4.PageElement → Prop) :
  (∀ name attrs class_ contents,
      Forall P contents → P (Bs4.Tag name attrs class_ contents)) →
  (∀ s, P (Bs4.NavigableString s)) →
  (∀ s, P (Bs4.Comment s)) →
  ∀ e, P e.
Proof.
  intros Htag Hstr Hcom. fix IH 1. intros [name attrs class_ contents | s | s].
  - apply Htag. induction contents as [|c contents IHc]; constructor.
    + apply IH.
    + exact IHc.
  - apply Hstr.
  - apply Hcom.
Qed.

Lemma elem_of_descendants_Tag (name : string) (attrs : gmap string string)
    (class_ : list string) (contents : list Bs4.PageElement)
    (x : Bs4.PageElement) :
  x ∈ Bs4.descendants (Bs4.Tag name attrs class_ contents)
  ↔ ∃ c, c ∈ contents ∧ (x = c ∨ x ∈ Bs4.descendants c).
Proof.
  simpl. induction contents as [|c contents IH].
  - split; [by intros ?%elem_of_nil | by intros (? & ?%elem_of_nil & _)].
  - rewrite elem_of_cons, elem_of_app, IH. split.
    + intros [->|[Hx|(c' & Hc' & Hx)]].
      * exists c. split; [by left | by left].
      * exists c. split; [by left | by right].
      * exists c'. split; [by right | done].
    + intros (c' & [->|Hc']%elem_of_cons & Hx).
      * destruct Hx as [->|Hx]; [by left | right; by left].
      * right. right. by exists c'.
Qed.

(** A descendant of a descendant is a descendant. *)
Lemma descendants_trans (e d x : Bs4.PageElement) :
  d ∈ Bs4.descendants e → x ∈ Bs4.descendants d → x ∈ Bs4.descendants e.
Proof.
  revert d x. induction e as [name attrs class_ contents IH | s | s]
    using PageElement_nested_ind; intros d x Hd Hx.
  - apply elem_of_descendants_Tag in Hd as (c & Hc & Hd).
    apply elem_of_descendants_Tag. exists c. split; [done|]. right.
    destruct Hd as [->|Hd]; [done|].
    rewrite Forall_forall in IH. by apply (IH c Hc d).
  - by apply elem_of_nil in Hd.
  - by apply elem_of_nil in Hd.
Qed.

Lemma elem_of_find_all (name cls : string) (e x : Bs4.PageElement) :
  x ∈ Bs4.find_all name cls e
  ↔ x ∈ Bs4.descendants e ∧ Bs4.matches name cls x = true.
Proof. unfold Bs4.find_all. rewrite !list_elem_of_In. apply filter_In. Qed.

Lemma find_is_Some (name cls : string) (e : Bs4.PageElement) :
  is_Some (Bs4.find name cls e) ↔ ∃ x, x ∈ Bs4.find_all name cls e.
Proof.
  unfold Bs4.find. destruct (Bs4.find_all name cls e) as [|y l]; simpl.
  - split; [by intros [? ?] | by intros [? ?%elem_of_nil]].
  - split; [|by eauto]. intros _. exists y. by left.
Qed.

(** X8: cards may nest. An element that [find_all] selects inside a selected
    element is selected from the whole tree as well, so a card inside a card
    is processed on its own too; and a lookup that succeeds in an inner
    element succeeds in every element around it, so the outer card takes
    over the fields it lacks from the inner one. *)
Theorem nested_elements_selected (name cls : string)
    (soup outer inner : Bs4.PageElement) :
  outer ∈ Bs4.find_all name cls soup →
  inner ∈ Bs4.descendants outer →
  (Bs4.matches name cls inner = true → inner ∈ Bs4.find_all name cls soup)
  ∧ (∀ name' cls',
       is_Some (Bs4.find name' cls' inner) →
       is_Some (Bs4.find name' cls' outer)).
Proof.
  intros [Houter _]%elem_of_find_all Hinner. split.
  - intros Hm. apply elem_of_find_all. split; [|done].
    by apply (descendants_trans soup outer).
  - intros name' cls' (x & [Hx Hm]%elem_of_find_all)%find_is_Some.
    apply find_is_Some. exists x. apply elem_of_find_all. split; [|done].
    by apply (descendants_trans outer inner).
Qed.

(** ** Trimmed text *)

Lemma rev_app_app (s t : string) : String.rev_app s t = String.rev s +:+ t.
Proof.
  revert t. induction s as [|a s IH]; intros t; [done|].
  unfold String.rev. simpl. rewrite (IH (String a t)), (IH (String a "")).
  by rewrite string_app_assoc, string_app_cons, string_app_nil_l.
Qed.

Lemma rev_rev_app (s t : string) :
  String.rev (String.rev_app s t) = String.rev_app t s.
Proof.
  revert t. induction s as [|a s IH]; intros t; [done|].
  simpl. by rewrite IH.
Qed.

Lemma string_rev_involutive (s : string) : String.rev (String.rev s) = s.
Proof. unfold String.rev at 2. by rewrite rev_rev_app. Qed.

Lemma rev_app_append (s t u : string) :
  String.rev_app (s +:+ t) u = String.rev_app t (String.rev_app s u).
Proof.
  revert u. induction s as [|a s IH]; intros u; [done|].
  rewrite string_app_cons. simpl. by rewrite IH.
Qed.

Lemma string_rev_app (s t : string) :
  String.rev (s +:+ t) = String.rev t +:+ String.rev s.
Proof.
  unfold String.rev at 1. rewrite rev_app_append, rev_app_app. done.
Qed.

Lemma first_char_app (s t : string) :
  s ≠ "" → first_char (s +:+ t) = first_char s.
Proof. by destruct s. Qed.

Lemma last_char_app (s t : string) :
  t ≠ "" → last_char (s +:+ t) = last_char t.
Proof.
  intros Ht. induction s as [|a s IH]; [done|].
  rewrite string_app_cons. simpl. rewrite IH.
  destruct (s +:+ t) eqn:E; [|done].
  destruct s; [|done]. by rewrite string_app_nil_l in E.
Qed.

Lemma last_char_rev (s : string) : last_char (String.rev s) = first_char s.
Proof.
  destruct s as [|a s]; [done|].
  unfold String.rev. simpl. rewrite rev_app_app. by rewrite last_char_app.
Qed.

Lemma lstrip_spec (n : nat) :
  ∀ s, String.length s ≤ n →
       no_space (first_char (Py.lstrip s)) ∧ ∃ pre, s = pre +:+ Py.lstrip s.
Proof.
  induction n as [n IH] using lt_wf_ind. intros s Hlen.
  destruct s as [|c1 s1].
  { split; [by intros c | by exists ""]. }
  simpl in Hlen. simpl Py.lstrip.
  assert (∀ pre s', String c1 s1 = pre +:+ s' → String.length s' < n →
            no_space (first_char (Py.lstrip s'))
            ∧ ∃ pre', String c1 s1 = pre' +:+ Py.lstrip s') as Hrec.
  { intros pre s' Heq Hs'.
    destruct (IH (String.length s') Hs' s' ltac:(lia)) as [Hfirst [pre' Hpre']].
    split; [done|]. exists (pre +:+ pre').
    by rewrite string_app_assoc, <- Hpre'. }
  assert (Py.is_space1 c1 = false →
            no_space (first_char (String c1 s1))
            ∧ ∃ pre, String c1 s1 = pre +:+ String c1 s1) as Hstop.
  { intros E. split; [by intros c [= <-] | by exists ""]. }
  destruct (Py.is_space1 c1) eqn:E1.
  { apply (Hrec (String c1 "")); [done | lia]. }
  destruct s1 as [|c2 s2]; [by apply Hstop|].
  simpl in Hlen.
  destruct ((Py.code c1 =? 194)%N && Py.is_space_C2 c2).
  { apply (Hrec (String c1 (String c2 ""))); [done | lia]. }
  destruct s2 as [|c3 s3]; [by apply Hstop|].
  simpl in Hlen.
  match goal with |- context [if ?b then _ else _] => destruct b end.
  - apply (Hrec (String c1 (String c2 (String c3 "")))); [done | lia].
  - by apply Hstop.
Qed.

Lemma lstrip_rev_spec (n : nat) :
  ∀ s, String.length s ≤ n →
       no_space (first_char (Py.lstrip_rev s))
       ∧ ∃ pre, s = pre +:+ Py.lstrip_rev s.
Proof.
  induction n as [n IH] using lt_wf_ind. intros s Hlen.
  destruct s as [|c1 s1].
  { split; [by intros c | by exists ""]. }
  simpl in Hlen. simpl Py.lstrip_rev.
  assert (∀ pre s', String c1 s1 = pre +:+ s' → String.length s' < n →
            no_space (first_char (Py.lstrip_rev s'))
            ∧ ∃ pre', String c1 s1 = pre' +:+ Py.lstrip_rev s') as Hrec.
  { intros pre s' Heq Hs'.
    destruct (IH (String.length s') Hs' s' ltac:(lia)) as [Hfirst [pre' Hpre']].
    split; [done|]. exists (pre +:+ pre').
    by rewrite string_app_assoc, <- Hpre'. }
  assert (Py.is_space1 c1 = false →
            no_space (first_char (String c1 s1))
            ∧ ∃ pre, String c1 s1 = pre +:+ String c1 s1) as Hstop.
  { intros E. split; [by intros c [= <-] | by exists ""]. }
  destruct (Py.is_space1 c1) eqn:E1.
  { apply (Hrec (String c1 "")); [done | lia]. }
  destruct s1 as [|c2 s2]; [by apply Hstop|].
  simpl in Hlen.
  destruct ((Py.code c2 =? 194)%N && Py.is_space_C2 c1).
  { apply (Hrec (String c1 (String c2 ""))); [done | lia]. }
  destruct s2 as [|c3 s3]; [by apply Hstop|].
  simpl in Hlen.
  match goal with |- context [if ?b then _ else _] => destruct b end.
  - apply (Hrec (String c1 (String c2 (String c3 "")))); [done | lia].
  - by apply Hstop.
Qed.

Lemma rstrip_prefix (s : string) : ∃ suf, s = Py.rstrip s +:+ suf.
Proof.
  destruct (lstrip_rev_spec _ (String.rev s) (le_n _)) as [_ [pre Hpre]].
  exists (String.rev pre). unfold Py.rstrip.
  rewrite <- string_rev_app, <- Hpre. by rewrite string_rev_involutive.
Qed.

Lemma strip_trimmed (s : string) : trimmed (Py.strip s) = true.
Proof.
  unfold trimmed, Py.strip. apply andb_true_intro. split.
  - destruct (first_char (Py.rstrip (Py.lstrip s))) as [c|] eqn:E; [|done].
    destruct (lstrip_spec _ s (le_n _)) as [Hfirst _].
    destruct (rstrip_prefix (Py.lstrip s)) as [suf Hsuf].
    rewrite (Hfirst c); [done|].
    rewrite Hsuf, first_char_app; [done|].
    intros Hnil. by rewrite Hnil in E.
  - unfold Py.rstrip. rewrite last_char_rev.
    destruct (lstrip_rev_spec _ (String.rev (Py.lstrip s)) (le_n _))
      as [Hfirst _].
    destruct (first_char _) as [c|]; [|done]. by rewrite (Hfirst c).
Qed.

Lemma all_strings_strip_pieces (e : Bs4.PageElement) :
  Forall (λ p, p ≠ "" ∧ trimmed p = true) (Bs4.all_strings_strip e).
Proof.
  unfold Bs4.all_strings_strip.
  induction (Bs4.descendants e) as [|d l IH]; [constructor|].
  change (flat_map ?f (d :: l)) with (f d ++ flat_map f l).
  apply Forall_app. split; [|done].
  destruct d as [| s |]; try constructor.
  destruct (Nat.eqb (String.length (Py.strip s)) 0) eqn:E; constructor.
  - split; [|apply strip_trimmed].
    intros Hnil. by rewrite Hnil in E.
  - constructor.
Qed.

Lemma join_pieces (p : string) (ps : list string) :
  Forall (λ p, p ≠ "" ∧ trimmed p = true) (p :: ps) →
  Py.join "" (p :: ps) ≠ ""
  ∧ first_char (Py.join "" (p :: ps)) = first_char p
  ∧ no_space (last_char (Py.join "" (p :: ps))).
Proof.
  revert p. induction ps as [|q ps IH]; intros p [[Hp Htrim] Hps]%Forall_cons.
  - simpl. split; [done|]. split; [done|].
    intros c Hc. unfold trimmed in Htrim. rewrite Hc in Htrim.
    apply andb_prop in Htrim as [_ Htrim]. by apply negb_true_iff.
  - destruct (IH q Hps) as (Hne & _ & Hlast).
    change (Py.join "" (p :: q :: ps))
      with (p +:+ "" +:+ Py.join "" (q :: ps)).
    rewrite string_app_nil_l. split; [by destruct p|].
    split; [by apply first_char_app|]. by rewrite last_char_app.
Qed.

Lemma get_text_strip_trimmed (e : Bs4.PageElement) :
  trimmed (Bs4.get_text_strip e) = true.
Proof.
  unfold Bs4.get_text_strip.
  pose proof (all_strings_strip_pieces e) as Hpieces.
  destruct (Bs4.all_strings_strip e) as [|p ps]; [done|].
  destruct (join_pieces p ps Hpieces) as (_ & Hfirst & Hlast).
  unfold trimmed. rewrite Hfirst.
  apply Forall_cons in Hpieces as [[_ Htrim] _].
  apply andb_prop in Htrim as [-> _]. simpl.
  destruct (last_char _) as [c|]; [|done]. by rewrite (Hlast c).
Qed.

(** X9: the name and the price of every record of the collection are
    trimmed: neither begins or ends with a space, a tab, a line break or
    another one-byte white space character. *)
Theorem record_fields_trimmed (soup : Bs4.PageElement) (r : NftRecord) :
  r ∈ extract soup → trimmed (name r) = true ∧ trimmed (price r) = true.
Proof.
  rewrite extract_omap. intros (item & _ & Hr)%list_elem_of_omap.
  apply record_of_Some in Hr as (_ & _ & -> & ->).
  unfold name_of, price_of. split.
  - destruct (Bs4.find "span" _ item); [apply get_text_strip_trimmed | done].
  - destruct (Bs4.find "div" _ item); [apply get_text_strip_trimmed | done].
Qed.

(** ** Pages made of parts *)

Lemma descendants_app (name : string) (attrs : gmap string string)
    (class_ : list string) (l1 l2 : list Bs4.PageElement) :
  Bs4.descendants (Bs4.Tag name attrs class_ (l1 ++ l2))
  = Bs4.descendants (Bs4.Tag name attrs class_ l1)
    ++ Bs4.descendants (Bs4.Tag name attrs class_ l2).
Proof.
  simpl. induction l1 as [|c l1 IH]; [done|].
  simpl. rewrite IH. by rewrite app_assoc.
Qed.

(** X10: the records of a tree whose children are [l1] followed by [l2] are
    the records found under [l1] followed by those found under [l2]. *)
Theorem extract_app (name : string) (attrs : gmap string string)
    (class_ : list string) (l1 l2 : list Bs4.PageElement) :
  extract (Bs4.Tag name attrs class_ (l1 ++ l2))
  = extract (Bs4.Tag name attrs class_ l1)
    ++ extract (Bs4.Tag name attrs class_ l2).
Proof.
  rewrite !extract_omap. unfold select_items, Bs4.find_all.
  by rewrite descendants_app, List.filter_app, omap_app.
Qed.

(** ** Further instances on the sample data *)

Lemma get_unique_filename_probed_paths_only_witness :
  get_unique_filename (String.eqb "nft_collection.json") 5
    "nft_collection" ".json"
  = get_unique_filename
      (λ p, String.eqb "nft_collection.json" p || String.eqb "index.html" p) 5
      "nft_collection" ".json".
Proof.
  apply (get_unique_filename_probed_paths_only
           (String.eqb "nft_collection.json")
           (λ p, String.eqb "nft_collection.json" p || String.eqb "index.html" p)
           "nft_collection" ".json" 5).
  - reflexivity.
  - intros k _. unfold numbered_name. rewrite string_app_cons. simpl.
    reflexivity.
Defined.

Lemma allocate_many_fresh_witness :
  ∃ rs, allocate_many 5 (files used_world) "nft_collection" ".json" 2 = Some rs
        ∧ length rs = 2
        ∧ NoDup rs
        ∧ ∀ r, r ∈ rs → files used_world !! r = None.
Proof.
  apply (allocate_many_fresh "nft_collection" ".json" 2 (files used_world) 5).
  vm_compute. lia.
Defined.

Lemma run_keeps_files_witness :
  files used_world ⊆ files used_world_after
  ∧ size (files used_world_after) ≤ S (size (files used_world))
  ∧ stdout used_world `prefix_of` stdout used_world_after.
Proof.
  apply (run_keeps_files sample_parser used_world used_world_after 3).
  vm_compute. reflexivity.
Defined.

Lemma run_many_outputs_witness :
  ∃ w' paths,
    run_many sample_parser 3 fresh_world 2 = Some w'
    ∧ length paths = 2
    ∧ NoDup paths
    ∧ (∀ p, p ∈ paths →
            files fresh_world !! p = None
            ∧ files w' !! p
              = Some (Json.dumps_indent4
                        (collection_value (extract (sample_parser sample_html)))))
    ∧ files fresh_world ⊆ files w'
    ∧ size (files w') = size (files fresh_world) + 2.
Proof.
  apply (run_many_outputs sample_parser sample_html 2).
  - vm_compute. discriminate.
  - vm_compute. reflexivity.
  - vm_compute. lia.
Defined.

Lemma blank_fields_empty_witness :
  ∃ r, process_item [] blank_name_card = [] ++ [r]
       ∧ (∀ name_tag,
            Bs4.find "span" "NftItemNameContent__name" blank_name_card
            = Some name_tag →
            blank name_tag → name r = "")
       ∧ (∀ price_tag,
            Bs4.find "div" "LibraryCryptoPrice__amount" blank_name_card
            = Some price_tag →
            blank price_tag → price r = "").
Proof.
  apply (blank_fields_empty [] blank_name_card
           (Bs4.Tag "img" {[ "src" := "http://x/3.png" ]} ["LibraryMedia"] [])
           "http://x/3.png").
  - vm_compute. reflexivity.
  - vm_compute. reflexivity.
  - discriminate.
Defined.

Lemma nested_elements_selected_witness :
  (Bs4.matches "div" "NftItemContainer" bare_card = true →
   bare_card ∈ Bs4.find_all "div" "NftItemContainer" (document [nested_card]))
  ∧ (∀ name' cls',
       is_Some (Bs4.find name' cls' bare_card) →
       is_Some (Bs4.find name' cls' nested_card)).
Proof.
  apply (nested_elements_selected "div" "NftItemContainer"
           (document [nested_card]) nested_card bare_card).
  - apply list_elem_of_In. vm_compute. left. reflexivity.
  - apply list_elem_of_In. vm_compute. right. left. reflexivity.
Defined.

Lemma record_fields_trimmed_witness :
  trimmed (name sample_record) = true ∧ trimmed (price sample_record) = true.
Proof.
  apply (record_fields_trimmed (document [sample_card]) sample_record).
  apply list_elem_of_In. vm_compute. left. reflexivity.
Defined.

Example blank_name_is_empty :
  extract (document [blank_name_card])
  = [{| name := ""; price := "Not Listed"; image_url := "http://x/3.png" |}].
Proof. vm_compute. reflexivity. Qed.

Example nested_card_counts_twice :
  extract (document [nested_card])
  = [{| name := "Unknown Name"; price := "Not Listed";
        image_url := "http://x/2.png" |};
     {| name := "Unknown Name"; price := "Not Listed";
        image_url := "http://x/2.png" |}].
Proof. vm_compute. reflexivity. Qed.
